(** * webOS 95 vibes: the retro desktop of [gpt5.py]

    A shallow embedding of the three state machines of [src/gpt5.py]:

    - the terminal line discipline of [TerminalWindow] (a Tk [Text] widget
      with a protected prompt prefix),
    - the floating windows of [Win95Window] and their stacking order inside
      [RetroDesktop],
    - the frame-rate pipeline between [RetroDesktop._pygame_loop] (producer
      thread) and [RetroDesktop._schedule_ui_tick] (Tk timer), which talk
      through a [queue.Queue],

    and of the canvas [RetroDesktop._draw_wallpaper] draws on.

    Python values are modelled as follows: [str] is a list of Unicode code
    points, [int] is [Z], [float] is the kernel's binary64 [float], a dict
    with arbitrary keys is a [gmap], an object is a record of its
    attributes, an exception is a value of [Py.exn], and code that can
    raise runs in a state-and-error monad.  Tk and tkinter are not part of
    the repository; what the program relies on is modelled next to its
    callers, from CPython's [tkinter/__init__.py] and from Tk 8.6's
    [text.tcl] and [tk.tcl], each with a note of the behaviour it stands
    for. *)

From Stdlib Require Import ZArith NArith Lia List Ascii String DecimalString.
From Stdlib Require Import Floats.PrimFloat Floats.SpecFloat Floats.FloatOps.
From stdpp Require Import base decidable option list gmap strings.

Local Open Scope Z_scope.
Local Open Scope list_scope.

(** * Python strings *)

Module PyStr.

(** A Python [str]: a sequence of code points. *)
Definition str : Type := list N.

(** The code points of an ASCII literal. *)
Definition py (s : string) : str :=
  map N_of_ascii (list_ascii_of_string s).

Definition nl : N := 10%N.
Definition space : N := 32%N.

(** [str.isspace] on one code point: the characters [str.strip] and
    [str.split] treat as white space. *)
Definition isspace (c : N) : bool :=
  ((9 <=? c) && (c <=? 13) || (28 <=? c) && (c <=? 32)
   || (c =? 133) || (c =? 160) || (c =? 5760)
   || (8192 <=? c) && (c <=? 8202)
   || (c =? 8232) || (c =? 8233) || (c =? 8239) || (c =? 8287)
   || (c =? 12288))%N.

(** [s.lstrip()], [s.rstrip()], [s.strip()]. *)
Fixpoint lstrip (s : str) : str :=
  match s with
  | [] => []
  | c :: s' => if isspace c then lstrip s' else s
  end.

Definition rstrip (s : str) : str := rev (lstrip (rev s)).

Definition strip (s : str) : str := rstrip (lstrip s).

(** [s.split()]: maximal runs of non-space characters, in order.  [cur] is
    the word being read, last character first. *)
Fixpoint split_from (cur : str) (s : str) : list str :=
  match s with
  | [] => match cur with [] => [] | _ => [rev cur] end
  | c :: s' =>
      if isspace c
      then match cur with
           | [] => split_from [] s'
           | _ => rev cur :: split_from [] s'
           end
      else split_from (c :: cur) s'
  end.

Definition split (s : str) : list str := split_from [] s.

(** [s.split(sep)] for a one-character separator: every separator cuts,
    empty pieces are kept, and the result is never empty. *)
Fixpoint split_on_from (sep : N) (cur : str) (s : str) : list str :=
  match s with
  | [] => [rev cur]
  | c :: s' =>
      if (c =? sep)%N
      then rev cur :: split_on_from sep [] s'
      else split_on_from sep (c :: cur) s'
  end.

Definition split_on (sep : N) (s : str) : list str := split_on_from sep [] s.

(** [sep.join(parts)]. *)
Fixpoint join (sep : str) (parts : list str) : str :=
  match parts with
  | [] => []
  | [p] => p
  | p :: rest => p ++ sep ++ join sep rest
  end.

(** [str.lower].  On a string of ASCII characters it maps [A]..[Z] to
    [a]..[z] and nothing else.  On any other string CPython consults its
    Unicode case table (with a context rule for the final sigma); that table
    is not part of the repository and is taken as a parameter. *)
Class CaseTable := unicode_lower : str -> str.

Definition isascii (c : N) : bool := (c <? 128)%N.

Definition ascii_lower (c : N) : N :=
  if ((65 <=? c) && (c <=? 90))%N then (c + 32)%N else c.

Definition lower `{CaseTable} (s : str) : str :=
  if forallb isascii s then map ascii_lower s else unicode_lower s.

(** [a == b] on strings. *)
Definition eqb (a b : str) : bool := bool_decide (a = b).

(** [str(n)] for an [int]. *)
Definition str_of_int (n : Z) : str := py (NilZero.string_of_int (Z.to_int n)).

End PyStr.
Export PyStr.

(** * Python exceptions and the tkinter module *)

Module Py.

(** The exceptions the program can meet. *)
Inductive exn :=
(** [AttributeError: module 'm' has no attribute 'a'] *)
| AttributeError (module_name attr : str)
(** [_tkinter.TclError] *)
| TclError (message : str).

Inductive result (A : Type) :=
| Ok (a : A)
| Raise (e : exn).

Arguments Ok {A} a.
Arguments Raise {A} e.

(** The widget classes the module [tkinter] defines (CPython,
    [tkinter/__init__.py]).  [Sizegrip] is not one of them: it is a class
    of [tkinter.ttk]. *)
Definition tkinter_classes : list str :=
  map py ["Tk"; "Toplevel"; "Button"; "Canvas"; "Checkbutton"; "Entry";
          "Frame"; "Label"; "Listbox"; "Menu"; "Menubutton"; "Message";
          "Radiobutton"; "Scale"; "Scrollbar"; "Text"; "OptionMenu";
          "Spinbox"; "LabelFrame"; "PanedWindow"]%string.

(** [tk.name], for the name of a widget class: the program's [tk] is the
    module [tkinter] ([import tkinter as tk]). *)
Definition getattr_tk (name : str) : result unit :=
  if bool_decide (name ∈ tkinter_classes) then Ok tt
  else Raise (AttributeError (py "tkinter") name).

End Py.

(** * The Tk text widget

    The part of [tk.Text] the terminal relies on.  A text widget always
    ends with a newline that cannot be deleted; [chars] is the content
    before that newline, so the Tk index ["end-1c"] is [length chars] and
    ["end"] is one past it.  Tk writes an index as [line.column]; here an
    index is the number of characters before it, which denotes the same
    place as long as the text in front of it does not change; the
    theorems read an index the program has stored in such states only.
    The selection is the range of the tag [sel]; the class bindings keep
    it in one piece, and it is taken inside [chars] (a selection that
    takes in the final newline too deletes the same text, since that
    newline stays). *)

Module TkText.

Record Text := mkText {
  chars : str;
  (** the [insert] mark: the position of the insertion cursor *)
  insert_mark : nat;
  (** [sel.first] and [sel.last]; [None] when nothing is selected *)
  sel : option (nat * nat)
}.

(** The index expressions the program uses; [at_ n] is an index string
    obtained earlier from [index]. *)
Inductive idx :=
| end_ | end_1c | insert_ | first_ | at_ (n : nat).

(** [text.index(i)] *)
Definition index (t : Text) (i : idx) : nat :=
  match i with
  | end_ => S (length (chars t))
  | end_1c => length (chars t)
  | insert_ => insert_mark t
  | first_ => 0%nat
  | at_ n => n
  end.

Inductive relop := op_lt | op_le.

(** [text.compare(i, op, j)] *)
Definition compare (t : Text) (i : idx) (op : relop) (j : idx) : bool :=
  match op with
  | op_lt => (index t i <? index t j)%nat
  | op_le => (index t i <=? index t j)%nat
  end.

(** [text.mark_set("insert", i)]: a mark cannot sit after the final
    newline. *)
Definition mark_set_insert (t : Text) (i : idx) : Text :=
  mkText (chars t) (Nat.min (index t i) (length (chars t))) (sel t).

(** What an insertion of [n] characters at [p] does to a tagged range:
    text put in front of the range pushes it to the right; text put
    inside it, with a tagged character on either side, gets the tag; text
    put at its end or after it leaves it alone. *)
Definition moved_by_insert (p n : nat) (r : nat * nat) : nat * nat :=
  if (p <=? r.1)%nat then (r.1 + n, r.2 + n)%nat
  else if (p <? r.2)%nat then (r.1, r.2 + n)%nat
  else r.

(** Where a position is after the characters from [p] up to [q] are
    deleted. *)
Definition after_delete (p q pos : nat) : nat :=
  if (pos <=? p)%nat then pos
  else if (pos <=? q)%nat then p
  else (pos - (q - p))%nat.

(** What is left of a tagged range; nothing when all of it is deleted. *)
Definition left_by_delete (p q : nat) (r : nat * nat) : option (nat * nat) :=
  let first := after_delete p q r.1 in
  let last := after_delete p q r.2 in
  if (first <? last)%nat then Some (first, last) else None.

(** [text.insert(i, s)].  An insertion at ["end"] goes in front of the
    final newline.  The [insert] mark has right gravity: text inserted at
    the mark or before it pushes the mark to the right. *)
Definition insert (t : Text) (i : idx) (s : str) : Text :=
  let p := Nat.min (index t i) (length (chars t)) in
  mkText (take p (chars t) ++ s ++ drop p (chars t))
         (if (p <=? insert_mark t)%nat
          then (insert_mark t + length s)%nat else insert_mark t)
         (moved_by_insert p (length s) <$> sel t).

(** [text.delete(i)]: the one character at [i]; the final newline stays. *)
Definition delete (t : Text) (i : idx) : Text :=
  let p := index t i in
  if (p <? length (chars t))%nat
  then mkText (take p (chars t) ++ drop (S p) (chars t))
              (if (p <? insert_mark t)%nat
               then pred (insert_mark t) else insert_mark t)
              (sel t ≫= left_by_delete p (S p))
  else t.

(** [text.delete(i, j)]: the characters from [i] up to [j]; the final
    newline stays.  (Tk moves [i] back over a newline when [j] is ["end"]
    and [i] starts a line other than the first; the program only deletes
    from ["1.0"].) *)
Definition delete_range (t : Text) (i j : idx) : Text :=
  let p := index t i in
  let q := Nat.min (index t j) (length (chars t)) in
  if (p <? q)%nat
  then mkText (take p (chars t) ++ drop q (chars t))
              (if (insert_mark t <=? p)%nat then insert_mark t
               else if (insert_mark t <=? q)%nat then p
               else (insert_mark t - (q - p))%nat)
              (sel t ≫= left_by_delete p q)
  else t.

(** [text.get(i, j)] *)
Definition get (t : Text) (i j : idx) : str :=
  take (index t j - index t i) (drop (index t i) (chars t)).

(** A freshly created widget. *)
Definition empty : Text := mkText [] 0 None.

(** ** The class bindings of [Text] (Tk 8.6, [text.tcl])

    What the widget itself does with an event once the program's own
    handler has let it through.  [tk_strictMotif] is false and the
    widget's [-state] is [normal], as Tk has them unless told otherwise;
    [%W see insert] scrolls the view and changes nothing here.  Only the
    bindings below are modelled. *)

(** [tk::TextCursorInSelection]:
    [[llength [$w tag ranges sel]] && [$w compare sel.first <= insert]
     && [$w compare sel.last >= insert]] *)
Definition TextCursorInSelection (t : Text) : bool :=
  match sel t with
  | Some (first, last) =>
      (first <=? insert_mark t)%nat && (insert_mark t <=? last)%nat
  | None => false
  end.

(** [%W delete sel.first sel.last] *)
Definition delete_selection (t : Text) : Text :=
  match sel t with
  | Some (first, last) => delete_range t (at_ first) (at_ last)
  | None => t
  end.

(** [tk::TextInsert w s]: nothing for the empty string; else the
    selection goes if the cursor is in it, and [s] is put in at the
    cursor. *)
Definition TextInsert (t : Text) (s : str) : Text :=
  match s with
  | [] => t
  | _ =>
      let t := if TextCursorInSelection t then delete_selection t else t in
      insert t insert_ s
  end.

(** [bind Text <BackSpace>]: the selection if the cursor is in it, else
    the character before the cursor ([insert-1c]) unless the cursor is at
    [1.0]. *)
Definition on_BackSpace (t : Text) : Text :=
  if TextCursorInSelection t then delete_selection t
  else match insert_mark t with
       | O => t
       | S p => delete t (at_ p)
       end.

(** [bind Text <Delete>]: the selection if the cursor is in it, else the
    character at the cursor unless that is the final newline. *)
Definition on_Delete (t : Text) : Text :=
  if TextCursorInSelection t then delete_selection t
  else delete t insert_.

(** [bind Text <Control-h>]: the character before the cursor unless the
    cursor is at [1.0]; the selection is not looked at. *)
Definition on_Control_h (t : Text) : Text :=
  match insert_mark t with
  | O => t
  | S p => delete t (at_ p)
  end.

(** [bind Text <Control-d>]: the character at the cursor unless that is
    the final newline. *)
Definition on_Control_d (t : Text) : Text := delete t insert_.

(** [tk::TextSetCursor w pos], the end of every binding that moves the
    cursor by a key, and [bind Text <1>] for a click at [pos]: the cursor
    goes to [pos] and the selection is dropped. *)
Definition TextSetCursor (t : Text) (pos : nat) : Text :=
  mkText (chars t) (Nat.min pos (length (chars t))) None.

End TkText.

(** * class Win95Window: the attributes *)

Module Win95Window.

(** [self._drag], a dict with the three keys ["x"], ["y"], ["active"]. *)
Record Drag := mkDrag {
  drag_x : Z;
  drag_y : Z;
  active : bool
}.

(** The widgets a window is made of: the frame itself, and inside it the
    title bar with its label and its close button, the content frame and
    the resize grip.  (What is packed into the content frame, the label
    of the About box or the text widget of a terminal, is a widget of its
    own and not one of these.) *)
Inductive part :=
| self_ | titlebar | title_lbl | btn_close | content | grip.

(** Pointer event types.  Tk reads [<Button-1>] and [<ButtonPress-1>] as
    one and the same event pattern. *)
Inductive pattern := ButtonPress_1 | B1_Motion | ButtonRelease_1.

Definition parse_pattern (s : str) : option pattern :=
  if PyStr.eqb s (py "<ButtonPress-1>") then Some ButtonPress_1
  else if PyStr.eqb s (py "<Button-1>") then Some ButtonPress_1
  else if PyStr.eqb s (py "<B1-Motion>") then Some B1_Motion
  else if PyStr.eqb s (py "<ButtonRelease-1>") then Some ButtonRelease_1
  else None.

Inductive handler :=
| call_on_drag_start | call_on_drag_move | call_on_drag_end
(** [lambda e: self.lift()] *)
| call_lift.

#[global] Instance part_eq_dec : EqDecision part.
Proof. solve_decision. Defined.

#[global] Instance pattern_eq_dec : EqDecision pattern.
Proof. solve_decision. Defined.

#[global] Instance handler_eq_dec : EqDecision handler.
Proof. solve_decision. Defined.

(** The text of the title label, the geometry under the [place] manager
    (what [winfo_x()] and [winfo_y()] report once Tk has laid the window
    out), the drag state, the widgets inside the frame that exist, and the
    bindings made on the frame and on those widgets, the latest first. *)
Record t := mk {
  title : str;
  x : Z;
  y : Z;
  width : Z;
  height : Z;
  _drag : Drag;
  parts : list part;
  bindings : list (part * pattern * handler)
}.

(** A frame as [tk.Frame.__init__] leaves it: no geometry manager yet
    (Tk reports a 1 x 1 window at the origin), nothing inside, nothing
    bound.  The attribute [_drag], which the object does not have before
    line 70, is given its first value here. *)
Definition blank : t := mk [] 0 0 1 1 (mkDrag 0 0 false) [] [].

(** [self.place(x=x, y=y, width=w, height=h)] *)
Definition place_all (self : t) (x y w h : Z) : t :=
  mk (title self) x y w h (_drag self) (parts self) (bindings self).

(** [self.place(x=x, y=y)] *)
Definition place (self : t) (x y : Z) : t :=
  mk (title self) x y (width self) (height self) (_drag self)
     (parts self) (bindings self).

Definition set_drag (self : t) (d : Drag) : t :=
  mk (title self) (x self) (y self) (width self) (height self) d
     (parts self) (bindings self).

(** A widget made inside the frame. *)
Definition add_part (wdg : part) (self : t) : t :=
  mk (title self) (x self) (y self) (width self) (height self) (_drag self)
     (parts self ++ [wdg]) (bindings self).

(** [tk.Label(self.titlebar, text=title, ...)] *)
Definition add_title_lbl (text : str) (self : t) : t :=
  mk text (x self) (y self) (width self) (height self) (_drag self)
     (parts self ++ [title_lbl]) (bindings self).

(** [wdg.bind(sequence, func)] for a sequence Tk has parsed: without
    [add="+"] the new handler replaces the one bound to the same widget
    and pattern. *)
Definition add_binding (wdg : part) (pat : pattern) (func : handler)
    (self : t) : t :=
  mk (title self) (x self) (y self) (width self) (height self) (_drag self)
     (parts self)
     ((wdg, pat, func)
      :: filter (λ b, b.1 ≠ (wdg, pat)) (bindings self)).

(** The handler Tk runs for an event of pattern [pat] on the widget
    [wdg]: the one bound to that very widget, if any; a binding of the
    frame is not run for an event on a widget inside it. *)
Definition binding_of (self : t) (wdg : part) (pat : pattern)
    : option handler :=
  snd <$> head (filter (λ b, b.1 = (wdg, pat)) (bindings self)).

(** Whether the widget [wdg] of the window exists. *)
Definition has_part (self : t) (wdg : part) : bool :=
  bool_decide (wdg = self_ ∨ wdg ∈ parts self).

End Win95Window.

(** * class TerminalWindow *)

Module TerminalWindow.
Import TkText.

Record t := mk {
  base : Win95Window.t;
  on_command : option (str -> str);
  text : Text;
  prompt : str;
  _lock_input_to_end : bool;
  _input_start_idx : nat
}.

Definition set_text (self : t) (tx : Text) : t :=
  mk (base self) (on_command self) tx (prompt self)
     (_lock_input_to_end self) (_input_start_idx self).

Definition set_input_start_idx (self : t) (i : nat) : t :=
  mk (base self) (on_command self) (text self) (prompt self)
     (_lock_input_to_end self) i.

Definition set_lock_input_to_end (self : t) (b : bool) : t :=
  mk (base self) (on_command self) (text self) (prompt self)
     b (_input_start_idx self).

(** [self.text.see("end")] scrolls the view and changes nothing below. *)

Definition _append_line (s : str) (self : t) : t :=
  set_text self (insert (text self) end_ (s ++ [nl])).

Definition _write_prompt (self : t) : t :=
  let self := set_text self (insert (text self) end_ (prompt self)) in
  set_input_start_idx self (index (text self) end_1c).

(** Lines 171-190 of [TerminalWindow.__init__]: what the constructor does
    to the object once [super().__init__(master, title="Terminal",
    **kwargs)] has returned the window [base].  ([tk.Text] is a class of
    tkinter; the attribute [_lock_input_to_end], which the object does not
    have before line 189, starts as [false].) *)
Definition init_attributes (base : Win95Window.t)
    (on_command : option (str -> str)) : t :=
  let self :=
    mk base on_command TkText.empty (py "C:\webos95> ") false 0 in
  let self := _append_line (py "webOS 95 Terminal") self in
  let self := _append_line (py "Type 'help' for commands.") self in
  let self := _write_prompt self in
  let self := set_lock_input_to_end self true in
  set_input_start_idx self (index (text self) end_1c).

(** A key press as Tk reports it: the keysym, the modifier keys held
    down, and [%A], the text the key stands for (empty for a key that
    stands for none).  The program reads [event.keysym] only. *)
Record KeyEvent := mkKey {
  keysym : str;
  shift : bool;
  control : bool;
  alt : bool;
  meta : bool;
  char : str
}.

(** What a Tk event handler returns: ["break"] stops the event, [None]
    hands it on to the widget's class binding. *)
Inductive verdict := Break | Pass.

(** No Tk call in the body raises, so the [try] never reaches its
    [except]. *)
Definition _on_key (event : KeyEvent) (self : t) : verdict * t :=
  let insert_idx := index (text self) insert_ in
  let self :=
    if _lock_input_to_end self
    then if compare (text self) (at_ insert_idx) op_lt
                    (at_ (_input_start_idx self))
         then set_text self (mark_set_insert (text self) end_1c)
         else self
    else self in
  if PyStr.eqb (keysym event) (py "BackSpace")
  then if compare (text self) (at_ (index (text self) insert_)) op_le
                  (at_ (_input_start_idx self))
       then (Break, self)
       else (Pass, self)
  else (Pass, self).

Section Commands.
Context `{CaseTable}.

Definition help_text : str :=
  py "Commands:" ++ [nl]
  ++ py "  help          Show this help" ++ [nl]
  ++ py "  echo [text]   Echo text" ++ [nl]
  ++ py "  time          Show current time" ++ [nl]
  ++ py "  clear         Clear screen" ++ [nl]
  ++ py "  about         About this OS" ++ [nl]
  ++ py "  vibes         Show vibe status" ++ [nl].

(** The dash after "Vibes" is U+2014. *)
Definition about_text : str :=
  py "webOS 95 Vibes " ++ [8212%N]
  ++ py " single shot, Tkinter + Pygame headless loop." ++ [nl]
  ++ py "Everything 100% in one file. FPS vibes on.".

(** [clock] is what [time.strftime("%Y-%m-%d %H:%M:%S")] returns at the
    moment of the call. *)
Definition _default_commands (clock : str) (cmd : str) (self : t) : str * t :=
  match PyStr.split cmd with
  | [] => ([], self)
  | part0 :: args =>
      let name := lower part0 in
      if PyStr.eqb name (py "help") || PyStr.eqb name (py "?")
      then (help_text, self)
      else if PyStr.eqb name (py "echo") then (join (py " ") args, self)
      else if PyStr.eqb name (py "time") then (clock, self)
      else if PyStr.eqb name (py "clear")
      then ([], set_text self (delete_range (text self) first_ end_))
      else if PyStr.eqb name (py "about") then (about_text, self)
      else if PyStr.eqb name (py "vibes")
      then (py "Vibes = ON. 600 fps spirit mode.", self)
      else (py "Unknown command: " ++ name, self)
  end.

Definition handle_command (clock : str) (cmd : str) (self : t) : t :=
  let '(out, self) :=
    match on_command self with
    | Some f => (f cmd, self)
    | None => _default_commands clock cmd self
    end in
  match out with
  | [] => self
  | _ => fold_left (fun self line => _append_line line self)
                   (split_on nl out) self
  end.

(** The handler of [<Return>]; it always returns ["break"], so the widget
    never inserts the newline itself. *)
Definition _on_return (clock : str) (self : t) : t :=
  let line := get (text self) (at_ (_input_start_idx self)) end_1c in
  let cmd := strip line in
  let self := _append_line [] self in
  let self := handle_command clock cmd self in
  _write_prompt self.

(** ** The widget under the keyboard and the mouse

    What Tk does with an event of the text widget.  The widget's own
    bindings come first: of those only the most specific fires, so the
    [Return] key goes to [_on_return] and every other key to [_on_key].
    A handler that does not return ["break"] is followed by the class
    binding of [Text] that is most specific for the event. *)

(** The class bindings for keys that are modelled. *)
Inductive script :=
| bind_Key | bind_BackSpace | bind_Delete | bind_Control_h | bind_Control_d.

(** The keysyms that have a binding of their own, with no modifier or with
    Shift, in [text.tcl] or among the virtual events of [tk.tcl]; for
    these the [<Key>] binding does not fire. *)
Definition own_binding : list str :=
  map py ["Tab"; "ISO_Left_Tab"; "hpBackTab"; "Return"; "KP_Enter";
          "Escape"; "BackSpace"; "Delete"; "Insert"; "Select"; "Clear";
          "Prior"; "Next"; "Left"; "Right"; "Up"; "Down"; "Home"; "End";
          "F2"; "F3"; "F4"; "F16"; "F18"; "F20"]%string.

(** A character that prints: not a control character. *)
Definition printable (c : N) : bool := ((32 <=? c) && negb (c =? 127))%N.

(** The text a key types, when the [<Key>] binding is the one that fires:
    no Control, Alt or Meta is held (they have the bindings [<Control-Key>],
    [<Alt-Key>], [<Meta-Key>], which do nothing), the keysym has no binding
    of its own, and the key stands for one printable character. *)
Definition types (event : KeyEvent) : bool :=
  negb (control event) && negb (alt event) && negb (meta event)
  && negb (bool_decide (keysym event ∈ own_binding))
  && match char event with
     | [c] => printable c
     | _ => false
     end.

(** The class binding Tk picks for a key press; [None] for an event whose
    binding is not modelled (the keys that move the cursor are the input
    [SetCursor] below). *)
Definition class_binding (event : KeyEvent) : option script :=
  if types event then Some bind_Key
  else if negb (shift event) && negb (alt event) && negb (meta event)
  then if control event
       then if PyStr.eqb (keysym event) (py "h") then Some bind_Control_h
            else if PyStr.eqb (keysym event) (py "d") then Some bind_Control_d
            else None
       else if PyStr.eqb (keysym event) (py "BackSpace")
            then Some bind_BackSpace
            else if PyStr.eqb (keysym event) (py "Delete")
            then Some bind_Delete
            else None
  else None.

(** What the class binding does to the widget. *)
Definition class_key (s : script) (event : KeyEvent) (tx : Text) : Text :=
  match s with
  | bind_Key => TextInsert tx (char event)
  | bind_BackSpace => on_BackSpace tx
  | bind_Delete => on_Delete tx
  | bind_Control_h => on_Control_h tx
  | bind_Control_d => on_Control_d tx
  end.

Inductive input :=
(** a key other than [Return] *)
| Key (event : KeyEvent)
(** the [Return] key; [clock] is the time of day then *)
| Return (clock : str)
(** a mouse click in the text, or a key that moves the cursor: the
    [insert] mark is put at offset [p] and the selection is dropped *)
| SetCursor (p : nat).

(** One event.  [None]: the event is outside the model (its class binding
    is not modelled, or it is a [Return] key given as a [Key]). *)
Definition step (i : input) (self : t) : option t :=
  match i with
  | Key event =>
      if PyStr.eqb (keysym event) (py "Return") then None
      else match _on_key event self with
           | (Break, self) => Some self
           | (Pass, self) =>
               (λ s, set_text self (class_key s event (text self)))
                 <$> class_binding event
           end
  | Return clock => Some (_on_return clock self)
  | SetCursor p => Some (set_text self (TextSetCursor (text self) p))
  end.

Fixpoint run (inputs : list input) (self : t) : option t :=
  match inputs with
  | [] => Some self
  | i :: inputs => step i self ≫= run inputs
  end.

End Commands.

(** ** Reading a terminal *)

(** The current input line: the text from the input start to the end of
    the buffer, as [_on_return] reads it. *)
Definition input_line (self : t) : str :=
  get (text self) (at_ (_input_start_idx self)) end_1c.

(** The committed transcript: the text in front of the input start. *)
Definition committed (self : t) : str :=
  take (_input_start_idx self) (chars (text self)).

(** The lock is on and the input start lies inside the buffer; so it is
    once [_on_return] has run. *)
Definition well_formed (self : t) : Prop :=
  _lock_input_to_end self = true
  /\ (_input_start_idx self <= length (chars (text self)))%nat.

(** How [handle_command] writes a response: nothing for an empty one,
    else each of its lines followed by a newline. *)
Definition shown (out : str) : str :=
  match out with
  | [] => []
  | _ => concat (map (fun line => line ++ [nl]) (split_on nl out))
  end.

(** The name [_default_commands] looks up: the first word of the command,
    in lower case. *)
Definition command_name `{CaseTable} (cmd : str) : option str :=
  lower <$> head (PyStr.split cmd).

(** Two terminals that differ at most in their text widget. *)
Definition same_frame (a b : t) : Prop :=
  base a = base b /\ on_command a = on_command b /\ prompt a = prompt b
  /\ _lock_input_to_end a = _lock_input_to_end b
  /\ _input_start_idx a = _input_start_idx b.

(** ** Terminals to run the model on *)

(** A case table to run the model with; on ASCII input it is never
    consulted. *)
Definition no_case_table : CaseTable := fun s => s.

(** Key events: a key that types the character [c], the BackSpace and
    Delete keys, and [h] with Control held. *)
Definition typing (keysym c : string) : KeyEvent :=
  mkKey (py keysym) false false false false (py c).

Definition typed (c : string) : input := Key (typing c c).

Definition BackSpace : KeyEvent :=
  mkKey (py "BackSpace") false false false false [8%N].

Definition Delete : KeyEvent :=
  mkKey (py "Delete") false false false false [127%N].

Definition Control_h : KeyEvent :=
  mkKey (py "h") false true false false [8%N].

(** The frame of the terminals below. *)
Definition a_frame : Win95Window.t :=
  Win95Window.place_all Win95Window.blank 120 120 560 320.

(** A terminal object with the banner and the prompt in its buffer,
    nothing typed, nothing selected and the cursor at the end: the object
    lines 171-190 set up. *)
Definition at_prompt : t := init_attributes a_frame None.

(** The same with [ab] typed and the cursor back at the input start. *)
Definition typed_ab : t :=
  set_text at_prompt
    (mkText (chars (text at_prompt) ++ py "ab") (_input_start_idx at_prompt)
            None).

(** The same with [ CLEAR now ] typed. *)
Definition typed_clear : t :=
  set_text at_prompt
    (insert (text at_prompt) end_ (py " CLEAR now ")).

(** A terminal object with the prompt alone in its buffer, the cursor
    after it, and [typed] typed. *)
Definition prompt_and (typed : str) (selection : option (nat * nat)) : t :=
  mk a_frame None
     (mkText (py "C:\webos95> " ++ typed) 12 selection)
     (py "C:\webos95> ") true 12.

(** ** More ways to read a terminal *)

(** A key that types: the [<Key>] binding of [Text] is the one that fires
    for it, and inserts its character. *)
Definition printing (event : KeyEvent) : Prop := types event = true.

(** Nothing is selected. *)
Definition no_selection (self : t) : Prop := sel (text self) = None.


(** Where the cursor is when a key takes effect: where it was, or at the
    end of the buffer if it was in front of the input start. *)
Definition landing (self : t) : nat :=
  if (insert_mark (text self) <? _input_start_idx self)%nat
  then length (chars (text self)) else insert_mark (text self).

(** What answers a command, and the terminal it leaves: the collaborator
    when there is one, else the built-in commands. *)
Definition response `{CaseTable} (clock cmd : str) (self : t) : str * t :=
  match on_command self with
  | Some f => (f cmd, self)
  | None => _default_commands clock cmd self
  end.

(** A response as it stands in the buffer: as it is, with a newline after
    it; nothing at all for the empty response. *)
Definition verbatim (out : str) : str :=
  match out with
  | [] => []
  | _ => out ++ [nl]
  end.

(** A word as [str.split] yields them: not empty, no white space in it. *)
Definition word (w : str) : Prop :=
  w <> [] /\ forallb (fun c => negb (isspace c)) w = true.

End TerminalWindow.

(** * class RetroDesktop: the windows

    The windows are Tk widgets, children of the root window.  [children]
    holds the live [Win95Window] objects by identity, [stack] their Tk
    stacking order from back to front.  (The canvas and the taskbar, created
    before any window and never raised, stay below all of them and are left
    out.) *)

Module Desktop.
Import Py Win95Window.

Inductive widget :=
| Plain (w : Win95Window.t)
| Terminal (tw : TerminalWindow.t).

(** The [Win95Window] attributes of a widget ([TerminalWindow] inherits
    them). *)
Definition window_of (c : widget) : Win95Window.t :=
  match c with
  | Plain w => w
  | Terminal tw => TerminalWindow.base tw
  end.

Definition with_window (c : widget) (w : Win95Window.t) : widget :=
  match c with
  | Plain _ => Plain w
  | Terminal tw =>
      Terminal (TerminalWindow.mk w (TerminalWindow.on_command tw)
                  (TerminalWindow.text tw) (TerminalWindow.prompt tw)
                  (TerminalWindow._lock_input_to_end tw)
                  (TerminalWindow._input_start_idx tw))
  end.

Record t := mk {
  children : gmap nat widget;
  stack : list nat;
  (** [self.terminal] *)
  terminal : option nat;
  (** the identity the next widget gets *)
  next_id : nat
}.

(** [RetroDesktop.__init__], as far as windows go: none yet
    ([self.terminal = None]); [open_terminal] is called by a timer 300 ms
    later. *)
Definition __init__ : t := mk ∅ [] None 0.

(** ** Tk operations *)

(** Creating a widget puts it on top of its siblings. *)
Definition create (c : widget) (d : t) : nat * t :=
  (next_id d,
   mk (<[next_id d := c]> (children d)) (stack d ++ [next_id d])
      (terminal d) (S (next_id d))).

(** [w.winfo_exists()] *)
Definition winfo_exists (w : nat) (d : t) : bool :=
  bool_decide (is_Some (children d !! w)).

(** [w.lift()]: Tk's [raise], to the top of the stacking order; the other
    windows keep their order.  Tk refuses a destroyed window; no caller
    below lifts one. *)
Definition lift (w : nat) (d : t) : t :=
  if winfo_exists w d
  then mk (children d) (filter (λ v, v ≠ w) (stack d) ++ [w])
          (terminal d) (next_id d)
  else d.

Definition set_window (self : nat) (w : Win95Window.t) (d : t) : t :=
  mk (alter (λ c, with_window c w) self (children d)) (stack d)
     (terminal d) (next_id d).

(** ** Code that can raise

    A computation on the desktop that returns a value or raises; what it
    did to the desktop before raising stays done. *)
Definition M (A : Type) : Type := t → result A * t.

#[global] Instance M_ret : MRet M := λ A a d, (Ok a, d).

#[global] Instance M_bind : MBind M := λ A B f m d,
  match m d with
  | (Ok a, d) => f a d
  | (Raise e, d) => (Raise e, d)
  end.

(** A statement that changes the window object [self]. *)
Definition update (self : nat) (f : Win95Window.t → Win95Window.t)
    : M unit :=
  λ d, (Ok tt,
        mk (alter (λ c, with_window c (f (window_of c))) self (children d))
           (stack d) (terminal d) (next_id d)).

(** A statement that raises or not whatever the desktop is. *)
Definition eval {A} (r : result A) : M A := λ d, (r, d).

(** [tk.Frame.__init__(master, ...)] for a new window: the object is
    registered with Tk and gets its identity. *)
Definition Frame__init__ : M nat :=
  λ d, (Ok (create (Plain blank) d).1, (create (Plain blank) d).2).

(** [wdg.bind(sequence, func)]; Tk raises on a sequence it cannot
    parse. *)
Definition bind (self : nat) (wdg : part) (sequence : str) (func : handler)
    : M unit :=
  match parse_pattern sequence with
  | Some pat => update self (add_binding wdg pat func)
  | None => eval (Raise (TclError (py "bad event type or keysym")))
  end.

(** ** class Win95Window *)

(** Lines 102-111: the bindings for moving and for raising. *)
Definition bind_calls (self : nat) : M unit :=
  (* for wdg in (self.titlebar, self.title_lbl) *)
  bind self titlebar (py "<ButtonPress-1>") call_on_drag_start ;;
  bind self titlebar (py "<B1-Motion>") call_on_drag_move ;;
  bind self titlebar (py "<ButtonRelease-1>") call_on_drag_end ;;
  bind self title_lbl (py "<ButtonPress-1>") call_on_drag_start ;;
  bind self title_lbl (py "<B1-Motion>") call_on_drag_move ;;
  bind self title_lbl (py "<ButtonRelease-1>") call_on_drag_end ;;
  (* Raise on click *)
  bind self self_ (py "<Button-1>") call_lift ;;
  bind self titlebar (py "<Button-1>") call_lift ;;
  bind self title_lbl (py "<Button-1>") call_lift.

(** [Win95Window.__init__(master, title, w, h, x, y)], statement by
    statement.  Line 99 looks [Sizegrip] up in the module [tkinter], which
    has no such name: the constructor raises there, with the frame, the
    title bar, the label, the close button and the content frame made and
    nothing bound. *)
Definition Win95Window__init__ (title : str) (w h x y : Z) : M nat :=
  self ← Frame__init__ ;                                    (* line 67 *)
  update self (λ win, place_all win x y w h) ;;             (* line 68 *)
  update self (λ win, set_drag win (mkDrag 0 0 false)) ;;   (* line 70 *)
  update self (add_part titlebar) ;;                        (* lines 72-73 *)
  update self (add_title_lbl title) ;;                      (* lines 74-83 *)
  update self (add_part btn_close) ;;                       (* lines 85-92 *)
  update self (add_part content) ;;                         (* lines 95-96 *)
  eval (getattr_tk (py "Sizegrip")) ;;                      (* line 99 *)
  update self (add_part grip) ;;                            (* lines 99-100 *)
  bind_calls self ;;                                        (* lines 102-111 *)
  mret self.

(** [place_forget()] unmaps the window, [destroy()] removes it. *)
Definition destroy_window (self : nat) (d : t) : t :=
  mk (delete self (children d)) (filter (λ v, v ≠ self) (stack d))
     (terminal d) (next_id d).

(** The pointer position an event carries: [event.x], [event.y], relative
    to the widget the event is delivered to. *)
Record Pointer := mkPointer {
  ev_x : Z;
  ev_y : Z
}.

Definition on_drag_start (self : nat) (event : Pointer) (d : t) : t :=
  match children d !! self with
  | None => d
  | Some c =>
      let d := set_window self
                 (set_drag (window_of c)
                    (mkDrag (ev_x event) (ev_y event) true)) d in
      lift self d
  end.

Definition on_drag_move (self : nat) (event : Pointer) (d : t) : t :=
  match children d !! self with
  | None => d
  | Some c =>
      let w := window_of c in
      if negb (active (_drag w)) then d
      else
        let dx := ev_x event - drag_x (_drag w) in
        let dy := ev_y event - drag_y (_drag w) in
        let x := Win95Window.x w + dx in
        let y := Win95Window.y w + dy in
        set_window self (place w x y) d
  end.

Definition on_drag_end (self : nat) (_ : Pointer) (d : t) : t :=
  match children d !! self with
  | None => d
  | Some c =>
      let w := window_of c in
      set_window self
        (set_drag w (mkDrag (drag_x (_drag w)) (drag_y (_drag w)) false)) d
  end.

(** ** Pointer events *)

Definition call (h : handler) (self : nat) (event : Pointer) (d : t) : t :=
  match h with
  | call_on_drag_start => on_drag_start self event d
  | call_on_drag_move => on_drag_move self event d
  | call_on_drag_end => on_drag_end self event d
  | call_lift => lift self d
  end.

(** Tk delivers a pointer event to the widget under the pointer and runs
    the handler bound to that widget, if any.  ([Frame] and [Label] have no
    class bindings for the pointer; a click on the close button is the
    input [Close] below; the text widget of a terminal, which would take a
    click for itself, is made by lines 173-185, which are never
    reached.) *)
Definition deliver (self : nat) (wdg : part) (pat : pattern)
    (event : Pointer) (d : t) : t :=
  match children d !! self with
  | Some c =>
      if has_part (window_of c) wdg
      then match binding_of (window_of c) wdg pat with
           | Some h => call h self event d
           | None => d
           end
      else d
  | None => d
  end.

(** ** class TerminalWindow: the constructor *)

(** Lines 171-190: the window object gets the attributes of a
    terminal. *)
Definition init_attributes (self : nat) (on_command : option (str -> str))
    : M unit :=
  λ d, (Ok tt,
        mk (alter (λ c, Terminal (TerminalWindow.init_attributes
                                    (window_of c) on_command))
                  self (children d))
           (stack d) (terminal d) (next_id d)).

(** [TerminalWindow.__init__(master, on_command, w, h, x, y)]: line 170
    calls [super().__init__], which raises; lines 171-190, which would make
    the text widget and write the banner and the prompt, are never
    reached. *)
Definition TerminalWindow__init__ (on_command : option (str -> str))
    (w h x y : Z) : M nat :=
  self ← Win95Window__init__ (py "Terminal") w h x y ;      (* line 170 *)
  init_attributes self on_command ;;                        (* lines 171-190 *)
  mret self.

(** ** Methods of RetroDesktop *)

(** [self.terminal = tw] *)
Definition set_terminal (tw : nat) : M unit :=
  λ d, (Ok tt, mk (children d) (stack d) (Some tw) (next_id d)).

(** The [try] around [lift] never reaches its [except]: the window
    exists. *)
Definition open_terminal : M unit :=
  λ d,
    let construct : M unit :=
      tw ← TerminalWindow__init__ None 560 320 120 120 ;
      set_terminal tw in
    match terminal d with
    | Some tw =>
        if winfo_exists tw d then (Ok tt, lift tw d) else construct d
    | None => construct d
    end.

(** The label of the box is packed into [w.content] and is no part of the
    window. *)
Definition _about_dialog : M unit :=
  w ← Win95Window__init__ (py "About webOS 95") 360 160 180 160 ;
  mret tt.

(** ** What the user does *)

Inductive input :=
(** the timer of [RetroDesktop.__init__], the Start menu, the desktop
    icon *)
| OpenTerminal
| About
| Press (w : nat) (wdg : part) (event : Pointer)
| Motion (w : nat) (wdg : part) (event : Pointer)
| Release (w : nat) (wdg : part) (event : Pointer)
(** a click on the close button, whose [command] is [destroy_window] *)
| Close (w : nat).

(** [open_terminal] and [_about_dialog] run as Tk callbacks: when one
    raises, tkinter reports the exception and the main loop goes on with
    the desktop as the callback left it. *)
Definition step (i : input) (d : t) : t :=
  match i with
  | OpenTerminal => (open_terminal d).2
  | About => (_about_dialog d).2
  | Press w wdg event => deliver w wdg ButtonPress_1 event d
  | Motion w wdg event => deliver w wdg B1_Motion event d
  | Release w wdg event => deliver w wdg ButtonRelease_1 event d
  | Close w =>
      match children d !! w with
      | Some c =>
          if has_part (window_of c) btn_close then destroy_window w d else d
      | None => d
      end
  end.

Definition run (inputs : list input) (d : t) : t :=
  fold_left (λ d i, step i d) inputs d.

(** ** A drag gesture, in desktop coordinates

    The pointer moves over the desktop; the widget [wdg] of the window sits
    at [offset] from the window's origin, and every event reports the
    pointer relative to where that widget is at that moment. *)
Definition pointer_at (offset pos : Z * Z) (w : Win95Window.t) : Pointer :=
  mkPointer (pos.1 - (Win95Window.x w + offset.1))
            (pos.2 - (Win95Window.y w + offset.2)).

Definition event_at (self : nat) (offset pos : Z * Z) (d : t) : Pointer :=
  match children d !! self with
  | Some c => pointer_at offset pos (window_of c)
  | None => mkPointer 0 0
  end.

Definition press_at (self : nat) (wdg : part) (offset pos : Z * Z)
    (d : t) : t :=
  step (Press self wdg (event_at self offset pos d)) d.

Definition motion_at (self : nat) (wdg : part) (offset pos : Z * Z)
    (d : t) : t :=
  step (Motion self wdg (event_at self offset pos d)) d.

Definition release_at (self : nat) (wdg : part) (offset pos : Z * Z)
    (d : t) : t :=
  step (Release self wdg (event_at self offset pos d)) d.

(** Press at [pos0], move through [path], release where the pointer is. *)
Definition drag_gesture (self : nat) (wdg : part) (offset pos0 : Z * Z)
    (path : list (Z * Z)) (d : t) : t :=
  let d := press_at self wdg offset pos0 d in
  let d := fold_left (λ d pos, motion_at self wdg offset pos d) path d in
  release_at self wdg offset (List.last path pos0) d.

(** The origin of a window. *)
Definition origin (self : nat) (d : t) : option (Z * Z) :=
  (λ c, (Win95Window.x (window_of c), Win95Window.y (window_of c)))
    <$> children d !! self.

(** The window in front. *)
Definition frontmost (d : t) : option nat := last (stack d).

(** The window that has the focus, as the spec's glossary has it: the
    window highest in the z-order "renders on top and receives focus". *)
Definition focused (d : t) : option nat := frontmost d.

(** Every window is a frame its constructor left unfinished (see
    [unfinished] below), and [self.terminal] is unset. *)
Definition unfinished_only (d : t) : Prop :=
  (∀ w c, children d !! w = Some c →
          ∃ title w h x y, c =
            Plain (Win95Window.mk title x y w h (mkDrag 0 0 false)
                     [titlebar; title_lbl; btn_close; content] []))
  ∧ terminal d = None.

(** ** Desktops to run the model on *)

(** What the constructor leaves behind when it raises: the frame in its
    place with the title bar, the label, the close button and the content
    frame; no grip, and no binding at all. *)
Definition unfinished (title : str) (w h x y : Z) : widget :=
  Plain (Win95Window.mk title x y w h (mkDrag 0 0 false)
           [titlebar; title_lbl; btn_close; content] []).

Definition terminal_frame : widget :=
  unfinished (py "Terminal") 560 320 120 120.

Definition about_frame : widget :=
  unfinished (py "About webOS 95") 360 160 180 160.

(** The desktop after the timer has called [open_terminal] (window 0) and
    the user has asked for the About box (window 1). *)
Definition two_windows : t := run [OpenTerminal; About] __init__.

(** The desktop with the About box alone. *)
Definition about_only : t := run [About] __init__.

End Desktop.

(** * class RetroDesktop: the frame-rate pipeline

    [_pygame_loop] runs in a background thread and puts a sample on
    [self.event_q] every quarter of a second; [_schedule_ui_tick], a Tk
    timer callback, takes everything off the queue and shows the last
    sample.  The two threads meet only at the queue, whose operations are
    atomic, so a run of the program is an interleaving of the steps below
    (one loop iteration, one UI tick). *)

Module Metrics.
Local Open Scope float_scope.

(** ** Python numbers *)

(** [float(n)]: the double nearest to the integer [n], ties to even, as in
    [n / 1000.0].  (Python raises OverflowError beyond the largest double,
    where this yields infinity; no counter of the program gets there.) *)
Definition float_of_int (n : Z) : float :=
  SF2Prim (binary_normalize prec emax n 0 false).

(** [math.pi] *)
Definition pi : float := 0x1.921fb54442d18p+1.

(** [round(x)] for a float: the nearest integer, ties to even; [None]
    stands for the exception Python raises on an infinity or a NaN. *)
Definition round (x : float) : option Z :=
  match Prim2SF x with
  | S754_zero _ => Some 0%Z
  | S754_finite s m e =>
      let n :=
        match e with
        | Zneg k =>
            let d := Z.pow_pos 2 k in
            let q := (Z.pos m / d)%Z in
            let r := (Z.pos m mod d)%Z in
            if (2 * r <? d)%Z then q
            else if (d <? 2 * r)%Z then (q + 1)%Z
            else if Z.even q then q else (q + 1)%Z
        | _ => (Z.pos m * 2 ^ e)%Z
        end in
      Some (if s then (- n)%Z else n)
  | S754_infinity _ | S754_nan => None
  end.

(** ** The events on the queue *)

Inductive value :=
| VStr (s : str)
| VFloat (f : float).

(** An event is a dict. *)
Abbreviation event := (gmap str value).

(** [{"type": "fps", "value": fps}] *)
Definition fps_event (fps : float) : event :=
  <[py "type" := VStr (py "fps")]> (<[py "value" := VFloat fps]> ∅).

(** [evt.get("type") == s] *)
Definition type_is (evt : event) (s : str) : bool :=
  match evt !! py "type" with
  | Some (VStr t) => PyStr.eqb t s
  | _ => false
  end.

(** ** The attributes of RetroDesktop both threads see *)

Record t := mk {
  running : bool;
  fps_value : value;
  (** [queue.Queue()], unbounded, oldest event first *)
  event_q : list event;
  (** the text of [self.taskbar.fps_lbl] *)
  fps_lbl : str
}.

(** The attributes as the first statements of [RetroDesktop.__init__]
    set them, with the label as [Win95Taskbar.__init__] made it. *)
Definition created : t := mk true (VFloat 0) [] (py "FPS: ---").

(** [event_q.put_nowait(evt)]: never full, the queue has no bound. *)
Definition put_nowait (evt : event) (self : t) : t :=
  mk (running self) (fps_value self) (event_q self ++ [evt]) (fps_lbl self).

(** [event_q.get_nowait()]: [None] stands for [queue.Empty]. *)
Definition get_nowait (self : t) : option (event * t) :=
  match event_q self with
  | [] => None
  | evt :: q => Some (evt, mk (running self) (fps_value self) q (fps_lbl self))
  end.

(** ** The consumer: _schedule_ui_tick *)

(** One turn of the [while True] loop with the event it got. *)
Definition process (evt : event) (self : t) : t :=
  if type_is evt (py "fps")
  then mk (running self) (default (VFloat 0) (evt !! py "value"))
          (event_q self) (fps_lbl self)
  else self.

(** The loop [while True: evt = self.event_q.get_nowait() ...], left
    through [queue.Empty]. *)
Fixpoint drain (fuel : nat) (self : t) : t :=
  match fuel with
  | O => self
  | S fuel =>
      match get_nowait self with
      | None => self
      | Some (evt, self) => drain fuel (process evt self)
      end
  end.

(** [f"FPS: {int(round(v))}"]; [None] when [round] raises (on a value that
    is not a finite float). *)
Definition fps_text (v : value) : option str :=
  match v with
  | VFloat x => (λ n, py "FPS: " ++ str_of_int n) <$> round x
  | VStr _ => None
  end.

(** The result says whether the callback got as far as re-arming its timer
    ([self.after(16, ...)]); it does not when formatting the label
    raises. *)
Definition _schedule_ui_tick (self : t) : t * bool :=
  let self := drain (S (length (event_q self))) self in
  match fps_text (fps_value self) with
  | Some s => (mk (running self) (fps_value self) (event_q self) s, true)
  | None => (self, false)
  end.

(** After [RetroDesktop.__init__], which calls [_schedule_ui_tick] once
    itself, before it starts the loop thread: the label says [FPS: 0]. *)
Definition __init__ : t := (_schedule_ui_tick created).1.

(** ** The producer: _pygame_loop *)

(** The local variables of the loop. *)
Record locals := mkLocals {
  target_fps : Z;
  acc_time : float;
  frames : Z;
  last_report : float;
  phase : float
}.

(** The state at the top of the loop, [t0] being [time.time()] then. *)
Definition loop_entry (t0 : float) : locals := mkLocals 600 0 0 t0 0.

(** The body of [while self.running].  [dt_ms] is what
    [clock.tick(target_fps)] returns, [now] what [time.time()] returns. *)
Definition loop_body (dt_ms : Z) (now : float) (l : locals) (self : t)
    : locals * t :=
  let dt := float_of_int dt_ms / 1000 in
  let frames := (frames l + 1)%Z in
  let acc_time := acc_time l + dt in
  let phase := phase l + dt * 2 * pi in
  if 0.25 <=? now - last_report l
  then
    let fps := float_of_int frames / (now - last_report l) in
    (mkLocals (target_fps l) acc_time 0 now phase,
     put_nowait (fps_event fps) self)
  else (mkLocals (target_fps l) acc_time frames (last_report l) phase, self).

(** ** The two threads together

    The loop thread reads [self.running] at the head of the loop only;
    between that test and the end of the iteration it sits in
    [clock.tick] and then runs the rest of the body, whatever
    [quit_app] does meanwhile.  The body meets the other thread at
    [put_nowait] alone, so an iteration is two steps: the test, and the
    rest. *)

(** Where the loop thread is. *)
Inductive place :=
(** about to test [self.running] *)
| at_loop_head
(** inside an iteration, in [clock.tick] *)
| in_iteration
(** past the loop *)
| exited.

Record thread := mkThread {
  pc : place;
  vars : locals
}.

(** The loop thread as it is started. *)
Definition started (t0 : float) : thread :=
  mkThread at_loop_head (loop_entry t0).

Inductive action :=
(** the test [while self.running] *)
| Test
(** the rest of an iteration: [clock.tick] returns [dt_ms], [time.time()]
    returns [now] *)
| Iterate (dt_ms : Z) (now : float)
| UiTick
(** [quit_app] *)
| Quit.

(** An action the loop thread cannot take where it is leaves the state as
    it is. *)
Definition step (a : action) (st : thread * t) : thread * t :=
  match a with
  | Test =>
      match pc st.1 with
      | at_loop_head =>
          (mkThread (if running st.2 then in_iteration else exited)
                    (vars st.1), st.2)
      | _ => st
      end
  | Iterate dt_ms now =>
      match pc st.1 with
      | in_iteration =>
          let r := loop_body dt_ms now (vars st.1) st.2 in
          (mkThread at_loop_head r.1, r.2)
      | _ => st
      end
  | UiTick => (st.1, (_schedule_ui_tick st.2).1)
  | Quit =>
      (st.1, mk false (fps_value st.2) (event_q st.2) (fps_lbl st.2))
  end.

Definition run (actions : list action) (st : thread * t) : thread * t :=
  fold_left (λ st a, step a st) actions st.

(** ** Reading a run *)

(** What one event on the queue does to [fps_value]. *)
Definition seen (v : value) (evt : event) : value :=
  if type_is evt (py "fps") then default (VFloat 0) (evt !! py "value") else v.

End Metrics.

(** * class RetroDesktop: the wallpaper

    [_draw_wallpaper] is bound to [<Configure>] of the canvas and so runs
    whenever the window gets a new size.  A canvas is its display list (the
    items in the order they were created, which is the order they are
    drawn in) and its tag bindings. *)

Module Wallpaper.

(** The items the program creates, with the options it gives them; an
    option left out is [None]. *)
Inductive item :=
| Oval (x0 y0 x1 y1 : Z) (fill : str) (width : Z)
| Rectangle (x0 y0 x1 y1 : Z) (fill : str) (outline : option str)
    (width : option Z) (tags : list str)
| Text (x y : Z) (text fill : str).

(** [lambda e: self.open_terminal()] *)
Inductive callback := call_open_terminal.

Record canvas := mkCanvas {
  items : list item;
  (** tag, event sequence, callback *)
  tag_bindings : list (str * str * callback)
}.

(** [canvas.delete("all")]: the items go, the tag bindings stay. *)
Definition delete_all (c : canvas) : canvas := mkCanvas [] (tag_bindings c).

(** [canvas.create_oval], [create_rectangle], [create_text] *)
Definition create (it : item) (c : canvas) : canvas :=
  mkCanvas (items c ++ [it]) (tag_bindings c).

(** [canvas.tag_bind(tag, sequence, func)]: the new callback replaces the
    one bound to the same tag and sequence. *)
Definition tag_bind (tag sequence : str) (func : callback) (c : canvas)
    : canvas :=
  mkCanvas (items c)
    (filter (λ b, ¬ (b.1.1 = tag ∧ b.1.2 = sequence)) (tag_bindings c)
     ++ [(tag, sequence, func)]).

(** [range(start, stop, step)] for a positive [step]. *)
Definition range (start stop step : Z) : list Z :=
  if start <? stop
  then map (λ k, start + step * Z.of_nat k)
           (seq 0 (Z.to_nat ((stop - start - 1) / step + 1)))
  else [].

(** [for a in l: body] *)
Definition for_ {A S} (l : list A) (body : A → S → S) (s : S) : S :=
  fold_left (λ s a, body a s) l s.

(** [w] and [h] are what [winfo_width()] and [winfo_height()] return.
    On the non-negative numbers [range] yields, Python's [//] and [%] are
    [/] and [mod]. *)
Definition _draw_wallpaper (w h : Z) (c : canvas) : canvas :=
  let c := delete_all c in
  let step := 24 in
  let c :=
    for_ (range 0 (h + step) step) (λ y c,
      for_ (range 0 (w + step) step) (λ x c,
        if ((x / step) + (y / step)) mod 2 =? 0
        then create (Oval (x - 2) (y - 2) (x + 2) (y + 2) (py "#70b0b0") 0) c
        else c) c) c in
  let c := create (Rectangle 20 20 (20 + 36) (20 + 28) (py "#b0d0d0")
                     None (Some 1) []) c in
  let c := create (Text 38 58 (py "My Web") (py "white")) c in
  let c := create (Rectangle 20 90 (20 + 36) (90 + 28) (py "#c0b0d0")
                     None (Some 1) []) c in
  let c := create (Text 38 128 (py "Terminal") (py "white")) c in
  let c := tag_bind (py "term_icon") (py "<Button-1>") call_open_terminal c in
  create (Rectangle 20 90 56 118 [] (Some []) None [py "term_icon"]) c.

(** ** Reading a wallpaper *)

(** The dot centred at [(x, y)]. *)
Definition dot (x y : Z) : item :=
  Oval (x - 2) (y - 2) (x + 2) (y + 2) (py "#70b0b0") 0.

(** The two desktop icons with their labels, and the rectangle without
    fill or outline that carries the tag [term_icon]. *)
Definition icons : list item :=
  [Rectangle 20 20 56 48 (py "#b0d0d0") None (Some 1) [];
   Text 38 58 (py "My Web") (py "white");
   Rectangle 20 90 56 118 (py "#c0b0d0") None (Some 1) [];
   Text 38 128 (py "Terminal") (py "white");
   Rectangle 20 90 56 118 [] (Some []) None [py "term_icon"]].

End Wallpaper.

(** * Facts about Python strings *)

Module PyStrFacts.

Lemma lstrip_spaces_app (ws s : str) :
  forallb isspace ws = true -> lstrip (ws ++ s) = lstrip s.
Proof.
  induction ws as [|c ws IH]; simpl; [reflexivity|].
  intros Hws. apply andb_prop in Hws as [Hc Hws].
  rewrite Hc. auto.
Qed.

Lemma lstrip_spaces (ws : str) :
  forallb isspace ws = true -> lstrip ws = [].
Proof.
  intros Hws. rewrite <- (app_nil_r ws). now rewrite lstrip_spaces_app.
Qed.

Lemma lstrip_nil_spaces (s : str) :
  lstrip s = [] -> forallb isspace s = true.
Proof.
  induction s as [|c s IH]; simpl; [reflexivity|].
  destruct (isspace c); [exact IH | discriminate].
Qed.

Lemma lstrip_app_keeps (s r : str) :
  lstrip s <> [] -> lstrip (s ++ r) = lstrip s ++ r.
Proof.
  induction s as [|c s IH]; simpl; [congruence|].
  destruct (isspace c); [exact IH | reflexivity].
Qed.

Lemma forallb_isspace_rev (ws : str) :
  forallb isspace ws = true -> forallb isspace (rev ws) = true.
Proof.
  rewrite !forallb_forall. intros Hws c Hc. apply Hws.
  now apply in_rev.
Qed.

Lemma rstrip_app_spaces (s ws : str) :
  forallb isspace ws = true -> rstrip (s ++ ws) = rstrip s.
Proof.
  intros Hws. unfold rstrip. rewrite rev_app_distr.
  now rewrite lstrip_spaces_app by now apply forallb_isspace_rev.
Qed.

(** White space around a string does not show after [strip]. *)
Lemma strip_surrounded (ws1 s ws2 : str) :
  forallb isspace ws1 = true -> forallb isspace ws2 = true ->
  strip (ws1 ++ s ++ ws2) = strip s.
Proof.
  intros H1 H2. unfold strip. rewrite lstrip_spaces_app by exact H1.
  destruct (lstrip s) as [|c r] eqn:Hs.
  - apply lstrip_nil_spaces in Hs.
    rewrite lstrip_spaces; [reflexivity|].
    rewrite forallb_app, Hs, H2. reflexivity.
  - rewrite lstrip_app_keeps by congruence.
    rewrite Hs. now apply rstrip_app_spaces.
Qed.

(** The result of [lstrip] does not start with white space, that of
    [strip] neither starts nor ends with it. *)
Lemma lstrip_head (s : str) (c : N) (r : str) :
  lstrip s = c :: r -> isspace c = false.
Proof.
  induction s as [|a s IH]; simpl; [discriminate|].
  destruct (isspace a) eqn:Ha; [exact IH|].
  intros [= <- _]. exact Ha.
Qed.

Lemma lstrip_suffix (s : str) : exists ws, s = ws ++ lstrip s.
Proof.
  induction s as [|a s [ws IH]]; simpl.
  - now exists [].
  - destruct (isspace a).
    + exists (a :: ws). simpl. now f_equal.
    + now exists [].
Qed.

Lemma strip_ends (s : str) :
  (forall c r, strip s = c :: r -> isspace c = false)
  /\ (forall r c, strip s = r ++ [c] -> isspace c = false).
Proof.
  split.
  - intros c r Hs. unfold strip, rstrip in Hs.
    destruct (lstrip s) as [|a u] eqn:Hl; [discriminate|].
    destruct (lstrip_suffix (rev (a :: u))) as [ws Hws].
    apply (f_equal (@rev N)) in Hws.
    rewrite rev_involutive, rev_app_distr, Hs in Hws.
    injection Hws as Ha _. subst a. eapply lstrip_head. exact Hl.
  - intros r c Hs. unfold strip, rstrip in Hs.
    apply (f_equal (@rev N)) in Hs.
    rewrite rev_involutive, rev_app_distr in Hs. simpl in Hs.
    now apply lstrip_head in Hs.
Qed.

(** A string is white space, what [strip] leaves of it, white space. *)
Lemma lstrip_decompose (s : str) :
  exists ws, s = ws ++ lstrip s /\ forallb isspace ws = true.
Proof.
  induction s as [|a s (ws & IH & Hws)]; simpl.
  - now exists [].
  - destruct (isspace a) eqn:Ha.
    + exists (a :: ws). simpl. rewrite Ha. split; [now f_equal | exact Hws].
    + now exists [].
Qed.

Lemma strip_decompose (s : str) :
  exists ws1 ws2,
    s = ws1 ++ strip s ++ ws2
    /\ forallb isspace ws1 = true /\ forallb isspace ws2 = true.
Proof.
  destruct (lstrip_decompose s) as (ws1 & Hs & H1).
  destruct (lstrip_decompose (rev (lstrip s))) as (ws & Hr & Hws).
  exists ws1, (rev ws). split; [|split; [exact H1|]].
  - unfold strip, rstrip. rewrite <- rev_app_distr, <- Hr, rev_involutive.
    exact Hs.
  - now apply forallb_isspace_rev.
Qed.

(** A string that neither starts nor ends with white space is what
    [strip] makes of it. *)
Lemma lstrip_fixed (s : str) :
  (forall c r, s = c :: r -> isspace c = false) -> lstrip s = s.
Proof.
  destruct s as [|c r]; [reflexivity|]. intros Hs. simpl.
  now rewrite (Hs c r eq_refl).
Qed.

Lemma strip_fixed (s : str) :
  (forall c r, s = c :: r -> isspace c = false) ->
  (forall r c, s = r ++ [c] -> isspace c = false) ->
  strip s = s.
Proof.
  intros Hfirst Hlast. unfold strip, rstrip.
  rewrite (lstrip_fixed s Hfirst).
  rewrite lstrip_fixed; [apply rev_involutive|].
  intros c r Hr. apply (Hlast (rev r) c).
  rewrite <- (rev_involutive s), Hr. reflexivity.
Qed.

End PyStrFacts.

(** * Facts about the text widget *)

Module TkTextFacts.
Import TkText.

Lemma chars_insert_end (t : Text) (s : str) :
  chars (insert t end_ s) = chars t ++ s.
Proof.
  unfold insert. cbn [index chars].
  rewrite Nat.min_r by lia.
  rewrite take_ge, drop_ge by lia. now rewrite app_nil_r.
Qed.

Lemma get_to_end (t : Text) (n : nat) :
  get t (at_ n) end_1c = drop n (chars t).
Proof.
  unfold get. simpl. apply take_ge. rewrite length_drop. lia.
Qed.

Lemma chars_delete_all (t : Text) :
  chars (delete_range t first_ end_) = [].
Proof.
  unfold delete_range. cbn [index].
  rewrite Nat.min_r by lia.
  destruct (0 <? length (chars t))%nat eqn:Hlen; simpl.
  - now rewrite drop_ge by lia.
  - apply Nat.ltb_ge in Hlen. destruct (chars t); [reflexivity|].
    simpl in Hlen. lia.
Qed.

(** Text put in at or after offset [n] leaves the first [n] characters
    alone. *)
Lemma take_insert (t : Text) (i : idx) (s : str) (n : nat) :
  (n <= index t i)%nat -> (n <= length (chars t))%nat ->
  take n (chars (insert t i s)) = take n (chars t).
Proof.
  intros Hi Hlen. unfold insert. cbn [chars].
  rewrite take_app_le by (rewrite length_take; lia).
  rewrite take_take. f_equal. lia.
Qed.


(** Likewise for a character taken out at or after offset [n]. *)
Lemma take_delete (t : Text) (i : idx) (n : nat) :
  (n <= index t i)%nat ->
  take n (chars (delete t i)) = take n (chars t).
Proof.
  intros Hi. unfold delete.
  destruct (index t i <? length (chars t))%nat eqn:Hlt; [|reflexivity].
  apply Nat.ltb_lt in Hlt. cbn [chars].
  rewrite take_app_le by (rewrite length_take; lia).
  rewrite take_take. f_equal. lia.
Qed.

Lemma length_delete (t : Text) (i : idx) (n : nat) :
  (n <= index t i)%nat -> (n <= length (chars t))%nat ->
  (n <= length (chars (delete t i)))%nat.
Proof.
  intros Hi Hlen. unfold delete.
  destruct (index t i <? length (chars t))%nat eqn:Hlt; [|exact Hlen].
  apply Nat.ltb_lt in Hlt. cbn [chars].
  rewrite length_app, length_take, length_drop. lia.
Qed.

End TkTextFacts.

(** * The terminal *)

Module TerminalFacts.
Import TkText TerminalWindow PyStrFacts TkTextFacts.

Lemma same_frame_refl a : same_frame a a.
Proof. repeat split. Qed.

Lemma same_frame_trans a b c :
  same_frame a b -> same_frame b c -> same_frame a c.
Proof.
  unfold same_frame. intros (?&?&?&?&?) (?&?&?&?&?).
  repeat split; congruence.
Qed.

Lemma same_frame_set_text a tx : same_frame (set_text a tx) a.
Proof. repeat split. Qed.

Lemma same_frame_append_line s a : same_frame (_append_line s a) a.
Proof. apply same_frame_set_text. Qed.

Lemma chars_append_line s a :
  chars (text (_append_line s a)) = chars (text a) ++ s ++ [nl].
Proof. unfold _append_line. cbn [text set_text]. apply chars_insert_end. Qed.

Lemma append_lines lines : forall a,
  let a' := fold_left (fun self line => _append_line line self) lines a in
  same_frame a' a
  /\ chars (text a') =
       chars (text a) ++ concat (map (fun line => line ++ [nl]) lines).
Proof.
  induction lines as [|l lines IH]; intros a; cbn [fold_left map concat].
  - split; [apply same_frame_refl | now rewrite app_nil_r].
  - destruct (IH (_append_line l a)) as [Hf Hc]. split.
    + eapply same_frame_trans; [exact Hf | apply same_frame_append_line].
    + rewrite Hc, chars_append_line. now rewrite <- !app_assoc.
Qed.

Lemma chars_write_prompt a :
  chars (text (_write_prompt a)) = chars (text a) ++ prompt a.
Proof.
  unfold _write_prompt. cbn [text set_text set_input_start_idx prompt].
  apply chars_insert_end.
Qed.

Lemma input_start_write_prompt a :
  _input_start_idx (_write_prompt a)
  = length (chars (text (_write_prompt a))).
Proof. reflexivity. Qed.

Section WithCaseTable.
Context `{CaseTable}.

Lemma same_frame_default_commands clock cmd a :
  same_frame (_default_commands clock cmd a).2 a.
Proof.
  unfold _default_commands.
  destruct (PyStr.split cmd) as [|part0 args]; [apply same_frame_refl|].
  repeat match goal with
         | |- context [if ?b then _ else _] => destruct b
         end;
    cbn [snd]; first [apply same_frame_refl | apply same_frame_set_text].
Qed.

Lemma same_frame_handle_command clock cmd a :
  same_frame (handle_command clock cmd a) a.
Proof.
  unfold handle_command.
  assert (Hd := same_frame_default_commands clock cmd a).
  destruct (on_command a) as [f|].
  - destruct (f cmd) as [|c out]; [apply same_frame_refl|].
    apply append_lines.
  - destruct (_default_commands clock cmd a) as [out a'].
    cbn [snd] in Hd. destruct out as [|c out]; [exact Hd|].
    eapply same_frame_trans; [apply append_lines | exact Hd].
Qed.

(** What [handle_command] leaves in the buffer when a collaborator
    answers. *)
Lemma chars_handle_command clock cmd a f :
  on_command a = Some f ->
  chars (text (handle_command clock cmd a))
  = chars (text a) ++ shown (f cmd).
Proof.
  intros Hf. unfold handle_command, shown. rewrite Hf.
  destruct (f cmd) as [|c out]; [now rewrite app_nil_r|].
  apply append_lines.
Qed.

(** The [clear] branch of [_default_commands]. *)
Lemma default_commands_clear clock cmd a :
  command_name cmd = Some (py "clear") ->
  _default_commands clock cmd a
  = ([], set_text a (delete_range (text a) first_ end_)).
Proof.
  unfold command_name, _default_commands.
  destruct (PyStr.split cmd) as [|part0 args]; [discriminate|].
  cbn [head fmap option_fmap option_map]. intros [= ->].
  change (PyStr.eqb (py "clear") (py "help")) with false.
  change (PyStr.eqb (py "clear") (py "?")) with false.
  change (PyStr.eqb (py "clear") (py "echo")) with false.
  change (PyStr.eqb (py "clear") (py "time")) with false.
  change (PyStr.eqb (py "clear") (py "clear")) with true.
  reflexivity.
Qed.

(** ** Submitting *)

(** C5.  After [_on_return] (the spec's [submit()]) the input start is the
    end of the buffer, and the buffer ends with the prompt just written. *)
Theorem submit_resets_input_start (clock : str) (tw : TerminalWindow.t) :
  let tw' := _on_return clock tw in
  _input_start_idx tw' = length (chars (text tw'))
  /\ (exists transcript,
        chars (text tw') = transcript ++ prompt tw
        /\ _input_start_idx tw' = length (transcript ++ prompt tw))
  /\ input_line tw' = [].
Proof.
  cbn zeta. unfold _on_return.
  set (a := handle_command _ _ _).
  assert (Hp : prompt a = prompt tw).
  { pose proof (same_frame_handle_command clock
                  (strip (get (text tw) (at_ (_input_start_idx tw)) end_1c))
                  (_append_line [] tw)) as Ha.
    pose proof (same_frame_append_line [] tw) as Hb.
    destruct (same_frame_trans _ _ _ Ha Hb) as (_&_&Hp&_). exact Hp. }
  split; [apply input_start_write_prompt|]. split.
  - exists (chars (text a)).
    rewrite input_start_write_prompt, chars_write_prompt, Hp. auto.
  - unfold input_line. rewrite get_to_end, input_start_write_prompt.
    now apply drop_ge.
Qed.

(** C9.  [_on_return] hands [handle_command] the input line stripped of
    the white space around it, not the line as typed.  The input line is
    the text from the input start to the end of the buffer; it is white
    space, the command, white space, and the command neither starts nor
    ends with white space.  The command dispatched is the only such
    reading of the line: whatever text stands between white space in the
    line and has none at its ends is the command, so two lines that
    differ in the white space around the same text dispatch the same
    command.  A collaborator is called on the command, and its answer is
    what the buffer shows. *)
Theorem submit_dispatches_stripped_line (clock : str) (tw : TerminalWindow.t) :
  let cmd := strip (input_line tw) in
  input_line tw = drop (_input_start_idx tw) (chars (text tw))
  /\ (exists ws1 ws2,
        input_line tw = ws1 ++ cmd ++ ws2
        /\ forallb isspace ws1 = true /\ forallb isspace ws2 = true)
  /\ (forall c r, cmd = c :: r -> isspace c = false)
  /\ (forall r c, cmd = r ++ [c] -> isspace c = false)
  /\ (forall ws1 s ws2,
        input_line tw = ws1 ++ s ++ ws2 ->
        forallb isspace ws1 = true -> forallb isspace ws2 = true ->
        (forall c r, s = c :: r -> isspace c = false) ->
        (forall r c, s = r ++ [c] -> isspace c = false) ->
        cmd = s)
  /\ (forall ws1 s ws2,
        input_line tw = ws1 ++ s ++ ws2 ->
        forallb isspace ws1 = true -> forallb isspace ws2 = true ->
        cmd = strip s)
  /\ _on_return clock tw
     = _write_prompt (handle_command clock cmd (_append_line [] tw))
  /\ (forall f, on_command tw = Some f ->
        chars (text (_on_return clock tw))
        = chars (text tw) ++ [nl] ++ shown (f cmd) ++ prompt tw).
Proof.
  cbn zeta.
  split; [apply get_to_end|].
  split; [apply strip_decompose|].
  split; [apply strip_ends|].
  split; [apply strip_ends|].
  split.
  { intros ws1 s ws2 -> H1 H2 Hfirst Hlast.
    rewrite strip_surrounded by assumption. now apply strip_fixed. }
  split.
  { intros ws1 s ws2 -> H1 H2. now apply strip_surrounded. }
  split; [reflexivity|].
  intros f Hf. unfold _on_return. fold (input_line tw).
  rewrite chars_write_prompt.
  pose proof (same_frame_handle_command clock (strip (input_line tw))
                (_append_line [] tw)) as Ha.
  pose proof (same_frame_append_line [] tw) as Hb.
  destruct (same_frame_trans _ _ _ Ha Hb) as (_&_&Hp&_). rewrite Hp.
  rewrite (chars_handle_command _ _ _ f)
    by (destruct Hb as (_&Hc&_); congruence).
  rewrite chars_append_line. cbn [app]. now rewrite <- !app_assoc.
Qed.

(** C10.  With the built-in commands, submitting a line whose first word
    is [clear] (in any case) empties the whole buffer, transcript
    included; the prompt written afterwards is all it holds. *)
Theorem clear_leaves_only_the_prompt (clock : str) (tw : TerminalWindow.t) :
  on_command tw = None ->
  command_name (strip (input_line tw)) = Some (py "clear") ->
  let tw' := _on_return clock tw in
  chars (text tw') = prompt tw
  /\ committed tw' = prompt tw
  /\ _input_start_idx tw' = length (prompt tw).
Proof.
  intros Hnone Hname. cbn zeta.
  assert (Hc : chars (text (_on_return clock tw)) = prompt tw).
  { unfold _on_return. fold (input_line tw). rewrite chars_write_prompt.
    unfold handle_command.
    set (tw' := _append_line [] tw).
    replace (on_command tw') with (@None (str -> str)) by (symmetry; exact Hnone).
    rewrite (default_commands_clear clock _ tw' Hname).
    cbn [text set_text prompt]. now rewrite chars_delete_all. }
  split; [exact Hc|].
  assert (Hi : _input_start_idx (_on_return clock tw) = length (prompt tw)).
  { unfold _on_return at 1. rewrite input_start_write_prompt.
    fold (_on_return clock tw). now rewrite Hc. }
  split; [|exact Hi].
  unfold committed. rewrite Hi, Hc. now apply take_ge.
Qed.

(** ** Keys *)

Lemma eqb_eq (a b : str) : PyStr.eqb a b = true <-> a = b.
Proof. unfold PyStr.eqb. apply bool_decide_eq_true. Qed.

Lemma eqb_neq (a b : str) : PyStr.eqb a b = false <-> a <> b.
Proof. unfold PyStr.eqb. apply bool_decide_eq_false. Qed.

(** What [_on_key] does for any key: it touches nothing but the cursor, a
    cursor in front of the input start goes to the end of the buffer, and
    a BackSpace is let through only with the cursor after the input
    start. *)
Lemma on_key_spec (event : KeyEvent) (tw : TerminalWindow.t) :
  well_formed tw ->
  let r := _on_key event tw in
  same_frame r.2 tw
  /\ chars (text r.2) = chars (text tw)
  /\ (_input_start_idx tw <= insert_mark (text r.2))%nat
  /\ (insert_mark (text r.2) =
        if (insert_mark (text tw) <? _input_start_idx tw)%nat
        then length (chars (text tw)) else insert_mark (text tw))
  /\ (r.1 = Pass -> keysym event = py "BackSpace" ->
        (_input_start_idx tw < insert_mark (text r.2))%nat).
Proof.
  intros [Hlock Hlen]. cbn zeta. unfold _on_key.
  rewrite Hlock. unfold compare. cbn [index].
  set (tw1 := if (insert_mark (text tw) <? _input_start_idx tw)%nat
              then set_text tw (mark_set_insert (text tw) end_1c) else tw).
  assert (H1 : same_frame tw1 tw /\ chars (text tw1) = chars (text tw)
               /\ (_input_start_idx tw <= insert_mark (text tw1))%nat
               /\ insert_mark (text tw1) =
                    if (insert_mark (text tw) <? _input_start_idx tw)%nat
                    then length (chars (text tw)) else insert_mark (text tw)).
  { subst tw1.
    destruct (insert_mark (text tw) <? _input_start_idx tw)%nat eqn:Hlt.
    - repeat split; cbn [text set_text mark_set_insert insert_mark index];
        lia.
    - apply Nat.ltb_ge in Hlt. repeat split; assumption. }
  clearbody tw1. destruct H1 as (Hf & Hc & Hm & Hm').
  assert (His : _input_start_idx tw1 = _input_start_idx tw)
    by (destruct Hf as (_&_&_&_&Hi); exact Hi).
  rewrite His.
  destruct (PyStr.eqb (keysym event) (py "BackSpace")) eqn:Hk.
  - destruct (insert_mark (text tw1) <=? _input_start_idx tw)%nat eqn:Hle;
      cbn [fst snd]; (do 4 (split; [assumption|])).
    + intros Hv. discriminate Hv.
    + intros _ _. apply Nat.leb_gt in Hle. exact Hle.
  - cbn [fst snd]. do 4 (split; [assumption|]).
    intros _ Hbs. apply eqb_eq in Hbs. congruence.
Qed.

(** [_on_key] with the cursor at or after the input start: nothing moves;
    it answers ["break"] for a BackSpace at the input start only. *)
Lemma on_key_in_input (event : KeyEvent) (tw : TerminalWindow.t) :
  (_input_start_idx tw <= insert_mark (text tw))%nat ->
  _on_key event tw
  = (if PyStr.eqb (keysym event) (py "BackSpace")
        && (insert_mark (text tw) <=? _input_start_idx tw)%nat
     then Break else Pass, tw).
Proof.
  intros Hcur. unfold _on_key, compare. cbn [index].
  replace (insert_mark (text tw) <? _input_start_idx tw)%nat with false
    by (symmetry; apply Nat.ltb_ge; exact Hcur).
  replace (if _lock_input_to_end tw then tw else tw) with tw
    by now destruct (_lock_input_to_end tw).
  destruct (PyStr.eqb (keysym event) (py "BackSpace")); [|reflexivity].
  now destruct (insert_mark (text tw) <=? _input_start_idx tw)%nat.
Qed.

(** What one character less at offset [p] leaves. *)
Lemma chars_delete (tx : Text) (i : idx) :
  chars (delete tx i)
  = take (index tx i) (chars tx) ++ drop (S (index tx i)) (chars tx).
Proof.
  unfold delete.
  destruct (index tx i <? length (chars tx))%nat eqn:Hlt; [reflexivity|].
  apply Nat.ltb_ge in Hlt.
  rewrite take_ge, drop_ge by lia. now rewrite app_nil_r.
Qed.

(** C2 fails in the program.  [_on_key] looks at the keysym [BackSpace]
    alone.  With Control held the key [h] has the keysym [h]; the handler
    lets it through, and the class binding [<Control-h>] of the text
    widget deletes the character before the cursor.  At a prompt, where
    the cursor is at the input start, that character is the last of the
    committed text: the buffer, which was the committed text [kept ++ [c]]
    followed by the input line, is [kept] followed by the input line, and
    the cursor is after [kept]. *)
Theorem control_h_erases_committed_text
    (event : KeyEvent) (tw : TerminalWindow.t) :
  keysym event = py "h" -> control event = true ->
  shift event = false -> alt event = false -> meta event = false ->
  insert_mark (text tw) = _input_start_idx tw ->
  (0 < _input_start_idx tw <= length (chars (text tw)))%nat ->
  exists tw' kept c,
    step (Key event) tw = Some tw'
    /\ _on_key event tw = (Pass, tw)
    /\ committed tw = kept ++ [c]
    /\ chars (text tw) = kept ++ [c] ++ input_line tw
    /\ chars (text tw') = kept ++ input_line tw
    /\ length (chars (text tw')) = (length (chars (text tw)) - 1)%nat
    /\ insert_mark (text tw') = length kept.
Proof.
  intros Hk Hctl Hshift Halt Hmeta Hcur [Hpos Hlen].
  assert (Hkey : _on_key event tw = (Pass, tw)).
  { rewrite on_key_in_input by lia. rewrite Hk.
    change (PyStr.eqb (py "h") (py "BackSpace")) with false. reflexivity. }
  assert (Hbind : class_binding event = Some bind_Control_h).
  { unfold class_binding, types. rewrite Hk, Hctl, Hshift, Halt, Hmeta.
    reflexivity. }
  unfold committed, input_line. rewrite get_to_end.
  destruct (_input_start_idx tw) as [|p] eqn:Hi; [lia|].
  destruct (lookup_lt_is_Some_2 (chars (text tw)) p) as [c Hp]; [lia|].
  exists (set_text tw (delete (text tw) (at_ p))),
         (take p (chars (text tw))), c.
  assert (Hc : chars (delete (text tw) (at_ p))
               = take p (chars (text tw)) ++ drop (S p) (chars (text tw)))
    by apply chars_delete.
  split.
  { cbn [step]. rewrite Hk.
    change (PyStr.eqb (py "h") (py "Return")) with false. cbv iota.
    rewrite Hkey, Hbind. cbn [fmap option_fmap option_map class_key].
    unfold on_Control_h. now rewrite Hcur. }
  split; [exact Hkey|].
  split; [now apply take_S_r|].
  split; [symmetry; now apply take_drop_middle|].
  cbn [text set_text]. rewrite Hc.
  split; [reflexivity|].
  split.
  { rewrite length_app, length_take, length_drop. lia. }
  rewrite length_take.
  unfold delete. cbn [index].
  replace (p <? length (chars (text tw)))%nat with true
    by (symmetry; apply Nat.ltb_lt; lia).
  cbn [insert_mark]. rewrite Hcur.
  replace (p <? S p)%nat with true by (symmetry; apply Nat.ltb_lt; lia).
  cbn [pred]. lia.
Qed.

(** C6, as the program has it.  With the cursor exactly at the input
    start, the BackSpace key is stopped: the handler answers ["break"],
    the widget never sees the key, and the terminal, buffer, cursor and
    selection included, is what it was.  The Delete key is let through:
    with nothing selected the widget takes away the character at the
    cursor, the first of the input line, and nothing when the input line
    is empty. *)
Theorem backspace_at_input_start_is_noop
    (event : KeyEvent) (tw : TerminalWindow.t) :
  insert_mark (text tw) = _input_start_idx tw ->
  (keysym event = py "BackSpace" ->
     _on_key event tw = (Break, tw) /\ step (Key event) tw = Some tw)
  /\ (class_binding event = Some bind_Delete -> no_selection tw ->
       _on_key event tw = (Pass, tw)
       /\ step (Key event) tw
          = Some (set_text tw (delete (text tw) insert_))
       /\ chars (delete (text tw) insert_)
          = committed tw ++ drop 1 (input_line tw)).
Proof.
  intros Hcur. split.
  - intros Hkey.
    assert (Hk : _on_key event tw = (Break, tw)).
    { rewrite on_key_in_input by lia. rewrite Hkey, Hcur, Nat.leb_refl.
      reflexivity. }
    split; [exact Hk|]. cbn [step]. rewrite Hkey.
    change (PyStr.eqb (py "BackSpace") (py "Return")) with false.
    cbv iota. now rewrite Hk.
  - intros Hbind Hsel.
    assert (Hkey : keysym event = py "Delete").
    { revert Hbind. unfold class_binding.
      repeat match goal with
             | |- context [if ?b then _ else _] => destruct b eqn:?
             end; try discriminate.
      intros _. now apply eqb_eq. }
    assert (Hk : _on_key event tw = (Pass, tw)).
    { rewrite on_key_in_input by lia. rewrite Hkey.
      change (PyStr.eqb (py "Delete") (py "BackSpace")) with false.
      reflexivity. }
    split; [exact Hk|]. split.
    + cbn [step]. rewrite Hkey.
      change (PyStr.eqb (py "Delete") (py "Return")) with false.
      cbv iota. rewrite Hk, Hbind.
      cbn [fmap option_fmap option_map class_key].
      unfold on_Delete, TextCursorInSelection.
      unfold no_selection in Hsel. now rewrite Hsel.
    + rewrite chars_delete. unfold committed, input_line.
      rewrite get_to_end. cbn [index]. rewrite Hcur, drop_drop.
      now replace (_input_start_idx tw + 1)%nat
        with (S (_input_start_idx tw)) by lia.
Qed.

End WithCaseTable.

(** ** The theorems at work *)

(** C2: the prompt alone in the buffer, the cursor after it, and
    Control-h.  The blank that ends the prompt is gone. *)
Example control_h_at_the_prompt :
  _on_key Control_h (prompt_and [] None) = (Pass, prompt_and [] None)
  /\ (chars ∘ text) <$> step (H := no_case_table) (Key Control_h)
                           (prompt_and [] None)
     = Some (py "C:\webos95>")
  /\ committed (prompt_and [] None) = py "C:\webos95> ".
Proof. repeat split. Qed.

(** C2 again: the whole buffer selected, with the cursor at its end, and
    a key that types.  [_on_key] finds the cursor after the input start
    and does nothing; the widget replaces the selection, committed text
    included, by the character. *)
Example typing_over_a_selection :
  let tw := mk a_frame None
              (mkText (py "hi" ++ [nl] ++ py "C:\webos95> ls") 17
                      (Some (0, 17)%nat))
              (py "C:\webos95> ") true 15 in
  committed tw = py "hi" ++ [nl] ++ py "C:\webos95> "
  /\ _on_key (typing "x" "x") tw = (Pass, tw)
  /\ (chars ∘ text) <$> step (H := no_case_table) (typed "x") tw
     = Some (py "x").
Proof. repeat split. Qed.

Lemma backspace_at_input_start_is_noop_witness :
  step (H := no_case_table) (Key BackSpace) typed_ab = Some typed_ab
  /\ (chars ∘ text) <$> step (H := no_case_table) (Key Delete)
                           (prompt_and (py "ab") None)
     = Some (py "C:\webos95> b").
Proof.
  split.
  - refine (proj2 (proj1 (backspace_at_input_start_is_noop
                            (H := no_case_table) BackSpace typed_ab _) _));
      reflexivity.
  - destruct (proj2 (backspace_at_input_start_is_noop
                       (H := no_case_table) Delete
                       (prompt_and (py "ab") None) eq_refl)
                eq_refl eq_refl) as (_ & -> & _).
    reflexivity.
Defined.

(** C6 as the spec words it fails for the Delete key: with [ab] typed
    after the prompt and the cursor at the input start, nothing selected,
    Delete leaves [b]; the buffer is one character shorter. *)
Lemma delete_at_input_start_removes :
  insert_mark (text (prompt_and (py "ab") None))
  = _input_start_idx (prompt_and (py "ab") None)
  /\ chars (text (prompt_and (py "ab") None)) = py "C:\webos95> ab"
  /\ (exists tw',
        step (H := no_case_table) (Key Delete) (prompt_and (py "ab") None)
        = Some tw'
        /\ chars (text tw') = py "C:\webos95> b"
        /\ chars (text tw') <> chars (text (prompt_and (py "ab") None))
        /\ length (chars (text tw'))
           <> length (chars (text (prompt_and (py "ab") None)))).
Proof.
  split; [reflexivity|]. split; [reflexivity|].
  eexists. split; [reflexivity|]. split; [reflexivity|].
  split; [vm_compute; discriminate | vm_compute; lia].
Qed.

Lemma clear_leaves_only_the_prompt_witness :
  chars (text (_on_return (H := no_case_table) (py "12:00:00") typed_clear))
  = py "C:\webos95> ".
Proof.
  refine (proj1 (clear_leaves_only_the_prompt (H := no_case_table)
                   (py "12:00:00") typed_clear _ _)); reflexivity.
Defined.

Lemma control_h_erases_committed_text_witness :
  exists tw' kept c,
    step (H := no_case_table) (Key Control_h) (prompt_and [] None) = Some tw'
    /\ py "C:\webos95> " = kept ++ [c]
    /\ chars (text tw') = kept ++ [].
Proof.
  destruct (control_h_erases_committed_text (H := no_case_table) Control_h
              (prompt_and [] None) eq_refl eq_refl eq_refl eq_refl eq_refl
              eq_refl) as (tw' & kept & c & Hs & _ & Hcom & _ & Hc & _).
  { vm_compute. lia. }
  exists tw', kept, c. split; [exact Hs|]. split; [exact Hcom | exact Hc].
Defined.

(** A collaborator that answers with the command it was given, between
    brackets, shows what reaches it: of the line [  hi ] only [hi]. *)
Example collaborator_sees_stripped_line :
  let echo := fun cmd => py "[" ++ cmd ++ py "]" in
  let tw := mk a_frame (Some echo)
              (mkText (py "C:\webos95>   hi ") 17 None)
              (py "C:\webos95> ") true 12 in
  input_line tw = py "  hi "
  /\ drop (_input_start_idx tw)
          (chars (text (_on_return (H := no_case_table) [] tw)))
     = py "  hi " ++ [nl] ++ py "[hi]" ++ [nl] ++ py "C:\webos95> ".
Proof. split; reflexivity. Qed.

End TerminalFacts.

(** * The windows *)

Module DesktopFacts.
Import Py Win95Window Desktop.

(** ** Reading a window back *)

Lemma window_of_with_window c w : window_of (with_window c w) = w.
Proof. now destruct c. Qed.

Lemma with_window_same c : with_window c (window_of c) = c.
Proof. destruct c as [w|tw]; [reflexivity|]. now destruct tw. Qed.

Lemma children_lift w d : children (lift w d) = children d.
Proof. unfold lift. now destruct (winfo_exists w d). Qed.

Lemma lookup_set_window self w d c :
  children d !! self = Some c ->
  children (set_window self w d) !! self = Some (with_window c w).
Proof. intros Hc. cbn [set_window children]. now rewrite lookup_alter_eq, Hc. Qed.

Lemma winfo_exists_true w d :
  winfo_exists w d = true <-> is_Some (children d !! w).
Proof. unfold winfo_exists. apply bool_decide_eq_true. Qed.

(** ** The stacking order *)

Lemma filter_ne_idemp (w : nat) (l : list nat) :
  filter (λ v, v ≠ w) (filter (λ v, v ≠ w) l) = filter (λ v, v ≠ w) l.
Proof.
  induction l as [|a l IH]; [reflexivity|].
  rewrite (filter_cons _ a l). destruct (decide (a ≠ w)) as [Ha|Ha].
  - rewrite filter_cons_True by exact Ha. now rewrite IH.
  - exact IH.
Qed.

Lemma filter_ne_absent (w : nat) (l : list nat) :
  w ∉ l -> filter (λ v, v ≠ w) l = l.
Proof.
  induction l as [|a l IH]; [reflexivity|].
  intros Hw. apply not_elem_of_cons in Hw as [Hne Hw].
  rewrite filter_cons_True by congruence. now rewrite IH.
Qed.

Lemma filter_ne_snoc (w : nat) (l : list nat) :
  filter (λ v, v ≠ w) (l ++ [w]) = filter (λ v, v ≠ w) l.
Proof.
  rewrite filter_app.
  rewrite (filter_cons_False _ w []) by (intros Hne; now apply Hne).
  now rewrite app_nil_r.
Qed.

Lemma stack_lift w d :
  is_Some (children d !! w) ->
  stack (lift w d) = filter (λ v, v ≠ w) (stack d) ++ [w].
Proof.
  intros Hw. unfold lift. apply winfo_exists_true in Hw. now rewrite Hw.
Qed.

(** ** The constructors *)

(** [tk.Sizegrip] raises. *)
Lemma no_Sizegrip :
  getattr_tk (py "Sizegrip")
  = Raise (AttributeError (py "tkinter") (py "Sizegrip")).
Proof. reflexivity. Qed.

(** [Win95Window.__init__] raises [AttributeError], whatever its
    arguments and whatever the desktop; it leaves the unfinished frame on
    top of the other windows. *)
Lemma Win95Window_init_raises (title : str) (w h x y : Z) (d : Desktop.t) :
  Win95Window__init__ title w h x y d
  = (Raise (AttributeError (py "tkinter") (py "Sizegrip")),
     mk (<[next_id d := unfinished title w h x y]> (children d))
        (stack d ++ [next_id d]) (terminal d) (S (next_id d))).
Proof.
  unfold Win95Window__init__, mbind, M_bind, Frame__init__, update, eval.
  cbn [create fst snd children stack terminal next_id].
  rewrite no_Sizegrip. rewrite !alter_insert_eq. reflexivity.
Qed.

Lemma TerminalWindow_init_raises on_command (w h x y : Z) (d : Desktop.t) :
  TerminalWindow__init__ on_command w h x y d
  = (Raise (AttributeError (py "tkinter") (py "Sizegrip")),
     mk (<[next_id d := unfinished (py "Terminal") w h x y]> (children d))
        (stack d ++ [next_id d]) (terminal d) (S (next_id d))).
Proof.
  unfold TerminalWindow__init__, mbind, M_bind.
  now rewrite Win95Window_init_raises.
Qed.

(** With [self.terminal] unset, [open_terminal] raises and leaves one
    more unfinished frame; [self.terminal] stays unset. *)
Lemma open_terminal_raises (d : Desktop.t) :
  terminal d = None ->
  open_terminal d
  = (Raise (AttributeError (py "tkinter") (py "Sizegrip")),
     mk (<[next_id d := terminal_frame]> (children d))
        (stack d ++ [next_id d]) None (S (next_id d))).
Proof.
  intros Hnone. unfold open_terminal. rewrite Hnone.
  unfold mbind, M_bind. rewrite TerminalWindow_init_raises.
  now rewrite Hnone.
Qed.

Lemma about_dialog_raises (d : Desktop.t) :
  _about_dialog d
  = (Raise (AttributeError (py "tkinter") (py "Sizegrip")),
     mk (<[next_id d := about_frame]> (children d))
        (stack d ++ [next_id d]) (terminal d) (S (next_id d))).
Proof.
  unfold _about_dialog, mbind, M_bind.
  now rewrite Win95Window_init_raises.
Qed.

Lemma bindings_add_binding wdg pat func (self : Win95Window.t) :
  bindings (add_binding wdg pat func self)
  = (wdg, pat, func) :: filter (λ b, b.1 ≠ (wdg, pat)) (bindings self).
Proof. reflexivity. Qed.

(** Had line 99 not raised, lines 102-111 would have bound the press on
    the title bar and on the title label twice: [<Button-1>] and
    [<ButtonPress-1>] are one pattern, and the later [lift] takes the
    place of [on_drag_start]. *)
Lemma lift_replaces_drag_start (self : nat) (c : widget) (d : Desktop.t) :
  children d !! self = Some c ->
  bindings (window_of c) = [] ->
  exists c',
    (bind_calls self d).1 = Ok tt
    /\ children (bind_calls self d).2 !! self = Some c'
    /\ binding_of (window_of c') titlebar ButtonPress_1 = Some call_lift
    /\ binding_of (window_of c') title_lbl ButtonPress_1 = Some call_lift
    /\ binding_of (window_of c') self_ ButtonPress_1 = Some call_lift
    /\ (forall wdg pat,
          binding_of (window_of c') wdg pat <> Some call_on_drag_start).
Proof.
  intros Hc Hb. unfold bind_calls, mbind, M_bind, bind, update.
  change (parse_pattern (py "<ButtonPress-1>")) with (Some ButtonPress_1).
  change (parse_pattern (py "<Button-1>")) with (Some ButtonPress_1).
  change (parse_pattern (py "<B1-Motion>")) with (Some B1_Motion).
  change (parse_pattern (py "<ButtonRelease-1>")) with (Some ButtonRelease_1).
  cbv beta iota zeta. cbn [fst snd children].
  rewrite !lookup_alter_eq, Hc. cbn [fmap option_fmap option_map].
  eexists. split; [reflexivity|]. split; [reflexivity|].
  rewrite !window_of_with_window.
  unfold binding_of. rewrite !bindings_add_binding, Hb.
  repeat split; try (vm_compute; reflexivity).
  intros wdg pat. destruct wdg, pat; vm_compute; discriminate.
Qed.

(** ** The desktops the program reaches *)

Lemma unfinished_only_init : unfinished_only Desktop.__init__.
Proof.
  split; [|reflexivity]. intros w c. cbn. rewrite lookup_empty.
  discriminate.
Qed.

Lemma unfinished_only_create title w h x y d :
  unfinished_only d ->
  unfinished_only
    (mk (<[next_id d := unfinished title w h x y]> (children d))
        (stack d ++ [next_id d]) None (S (next_id d))).
Proof.
  intros [Hd _]. split; [|reflexivity]. intros v c. cbn [children].
  rewrite lookup_insert_Some. intros [[_ <-]|[_ Hc]]; [|eauto].
  unfold unfinished. eauto 10.
Qed.

(** No handler is bound in an unfinished window. *)
Lemma binding_of_unfinished d w c wdg pat :
  unfinished_only d -> children d !! w = Some c ->
  binding_of (window_of c) wdg pat = None.
Proof.
  intros [Hd _] Hc. destruct (Hd w c Hc) as (?&?&?&?&?& ->). reflexivity.
Qed.

(** A pointer event runs no handler and changes nothing. *)
Lemma deliver_unfinished self wdg pat event d :
  unfinished_only d -> deliver self wdg pat event d = d.
Proof.
  intros Hd. unfold deliver.
  destruct (children d !! self) as [c|] eqn:Hc; [|reflexivity].
  rewrite (binding_of_unfinished d self c wdg pat Hd Hc).
  now destruct (has_part _ _).
Qed.

Lemma unfinished_only_step i d :
  unfinished_only d -> unfinished_only (step i d).
Proof.
  intros Hd. destruct i as [| |v wdg event|v wdg event|v wdg event|v];
    cbn [step].
  - rewrite open_terminal_raises by apply Hd. cbn [snd].
    now apply unfinished_only_create.
  - rewrite about_dialog_raises. cbn [snd].
    replace (terminal d) with (@None nat) by (symmetry; apply Hd).
    now apply unfinished_only_create.
  - now rewrite deliver_unfinished.
  - now rewrite deliver_unfinished.
  - now rewrite deliver_unfinished.
  - destruct (children d !! v) as [c|]; [|exact Hd].
    destruct (has_part _ _); [|exact Hd].
    destruct Hd as [Hd Ht]. split; [|exact Ht].
    intros u c'. cbn [destroy_window children].
    rewrite lookup_delete_Some. intros [_ Hc']. eauto.
Qed.

Lemma unfinished_only_run inputs : forall d,
  unfinished_only d -> unfinished_only (run inputs d).
Proof.
  induction inputs as [|i inputs IH]; intros d Hd; [exact Hd|].
  apply IH. now apply unfinished_only_step.
Qed.

Lemma unfinished_only_reached inputs :
  unfinished_only (run inputs Desktop.__init__).
Proof. apply unfinished_only_run, unfinished_only_init. Qed.

(** ** Pressing *)

(** C3 fails in the program.  The bindings that should raise a window on
    a press are made by lines 109-111 of the constructor, which line 99
    never lets it reach: no window has any binding.  Whatever happened
    before, a press on any widget of any window leaves the desktop as it
    is: the stacking order, and with it the window in front and the
    focus, is what it was. *)
Theorem press_changes_nothing
    (inputs : list input) (w : nat) (wdg : part) (event : Pointer) :
  let d := run inputs Desktop.__init__ in
  let d' := step (Press w wdg event) d in
  d' = d
  /\ stack d' = stack d
  /\ frontmost d' = frontmost d
  /\ focused d' = focused d
  /\ (forall v, v <> w -> focused d = Some v ->
        frontmost d' <> Some w /\ focused d' <> Some w).
Proof.
  cbn zeta.
  assert (Hd : step (Press w wdg event) (run inputs Desktop.__init__)
               = run inputs Desktop.__init__)
    by apply deliver_unfinished, unfinished_only_reached.
  rewrite Hd. repeat split; try reflexivity.
  - unfold focused in *. congruence.
  - congruence.
Qed.

(** The terminal's frame (window 0), the About box opened after it
    (window 1), and a press on the title bar of the first: it should come
    to the front; the About box stays there. *)
Example press_leaves_the_window_behind :
  stack two_windows = [0; 1]%nat
  /\ stack (step (Press 0 titlebar (mkPointer 30 8)) two_windows)
     = [0; 1]%nat
  /\ frontmost (step (Press 0 titlebar (mkPointer 30 8)) two_windows)
     = Some 1%nat
  /\ frontmost (step (Press 0 titlebar (mkPointer 30 8)) two_windows)
     <> Some 0%nat.
Proof. repeat split. vm_compute. discriminate. Qed.

(** ** Closing *)

(** C8.  [destroy_window] takes the window out of the desktop and out of
    the stacking order; the other windows keep their objects and their
    order.  The focus, which goes with the top of the z-order, stays
    where it is when another window is closed; when the window in front
    is closed it is with the highest of those left, the one that was just
    below, and with none when no window is left. *)
Theorem close_removes_window (d : Desktop.t) (w : nat) :
  let d' := destroy_window w d in
  children d' !! w = None
  /\ (w ∉ stack d')
  /\ stack d' = filter (λ v, v ≠ w) (stack d)
  /\ (forall v, v ≠ w -> children d' !! v = children d !! v)
  /\ focused d' = last (filter (λ v, v ≠ w) (stack d))
  /\ (forall below, stack d = below ++ [w] -> w ∉ below ->
        focused d = Some w
        /\ stack d' = below
        /\ focused d' = last below)
  /\ (forall v, focused d = Some v -> v ≠ w -> focused d' = Some v)
  /\ terminal d' = terminal d.
Proof.
  cbn zeta. unfold destroy_window, focused, frontmost.
  cbn [children stack terminal].
  split; [apply lookup_delete_eq|].
  split; [rewrite list_elem_of_filter; intros [Hne _]; now apply Hne|].
  split; [reflexivity|].
  split; [intros v Hv; apply lookup_delete_ne; congruence|].
  split; [reflexivity|].
  split.
  { intros below -> Hw. rewrite filter_ne_snoc, filter_ne_absent by exact Hw.
    split; [apply last_snoc | auto]. }
  split; [|reflexivity].
  intros v Hv Hne. apply last_Some in Hv as [l ->].
  rewrite filter_app, filter_cons_True by exact Hne.
  cbn. apply last_snoc.
Qed.

(** The About box in front of the terminal's frame: close it, and the
    frame below is in front; close that too, and nothing is. *)
Example close_the_about_box :
  focused two_windows = Some 1%nat
  /\ focused (step (Close 1) two_windows) = Some 0%nat
  /\ focused (step (Close 0) (step (Close 1) two_windows)) = None.
Proof. repeat split. Qed.

(** ** Dragging *)


(** The About box, dragged by its title bar from (200, 170) to
    (210, 175), should end at (190, 165); it stays at (180, 160). *)
Example drag_about_box :
  origin 0 about_only = Some (180, 160)
  /\ origin 0 (drag_gesture 0 titlebar (2, 2) (200, 170)
                 [(205, 172); (210, 175)] about_only)
     = Some (180, 160).
Proof. split; reflexivity. Qed.

Lemma last_cons_default {A} (l : list A) : forall p d,
  List.last (p :: l) d = List.last l p.
Proof.
  induction l as [|a l IH]; intros p d; [reflexivity|].
  change (List.last (p :: a :: l) d) with (List.last (a :: l) d).
  now rewrite (IH a d), (IH a p).
Qed.

(** X17.  The handlers themselves do what the spec says: were
    [on_drag_start] called at the press, the window would follow the
    pointer, whatever the path in between.  Called in turn on a live
    window, [on_drag_start], [on_drag_move] along any path and
    [on_drag_end] leave its origin moved by what the pointer moved from
    the press to the last position. *)
Lemma handlers_follow_pointer
    (d : Desktop.t) (self : nat) (c : widget)
    (offset pos0 : Z * Z) (path : list (Z * Z)) :
  children d !! self = Some c ->
  let d1 := on_drag_start self (event_at self offset pos0 d) d in
  let d2 := fold_left
              (λ d pos, on_drag_move self (event_at self offset pos d) d)
              path d1 in
  let d3 := on_drag_end self
              (event_at self offset (List.last path pos0) d2) d2 in
  origin self d3
  = Some (x (window_of c) + ((List.last path pos0).1 - pos0.1),
          y (window_of c) + ((List.last path pos0).2 - pos0.2)).
Proof.
  intros Hc. cbn zeta.
  set (x0 := x (window_of c)). set (y0 := y (window_of c)).
  set (grip := mkDrag (pos0.1 - (x0 + offset.1))
                      (pos0.2 - (y0 + offset.2)) true).
  (* the window while it is dragged, the pointer being at [pos] *)
  set (dragged := fun (pos : Z * Z) (d : Desktop.t) =>
         exists c', children d !! self = Some c'
                    /\ _drag (window_of c') = grip
                    /\ x (window_of c') = x0 + (pos.1 - pos0.1)
                    /\ y (window_of c') = y0 + (pos.2 - pos0.2)).
  assert (Hstart : dragged pos0
                     (on_drag_start self (event_at self offset pos0 d) d)).
  { unfold on_drag_start, event_at. rewrite Hc.
    exists (with_window c (set_drag (window_of c) grip)).
    rewrite children_lift, window_of_with_window.
    split; [now apply lookup_set_window|]. cbn. repeat split; lia. }
  assert (Hmove : forall pos pos' d, dragged pos d ->
            dragged pos' (on_drag_move self (event_at self offset pos' d) d)).
  { intros pos pos' d' (c' & Hc' & Hg & Hx & Hy).
    unfold on_drag_move, event_at. rewrite Hc', Hg.
    change (negb (active grip)) with false. cbv iota.
    eexists. split; [apply lookup_set_window; exact Hc'|].
    rewrite window_of_with_window. unfold place, pointer_at.
    cbn [_drag x y ev_x ev_y]. rewrite Hg, Hx, Hy.
    subst grip. cbn [drag_x drag_y]. repeat split; lia. }
  assert (Hpath : forall l pos d, dragged pos d ->
            dragged (List.last l pos)
              (fold_left
                 (λ d pos, on_drag_move self (event_at self offset pos d) d)
                 l d)).
  { clear Hstart. intros l.
    induction l as [|p l IH]; intros pos d' Hd.
    - exact Hd.
    - cbn [fold_left].
      rewrite last_cons_default.
      apply IH. now apply (Hmove pos). }
  destruct (Hpath path pos0 _ Hstart) as (c' & Hc' & Hg & Hx & Hy).
  unfold on_drag_end, origin. rewrite Hc'.
  rewrite (lookup_set_window _ _ _ c') by exact Hc'.
  cbn [fmap option_fmap option_map]. rewrite window_of_with_window.
  cbn [set_drag x y]. now rewrite Hx, Hy.
Qed.

End DesktopFacts.

(** * The frame-rate pipeline *)

Module MetricsFacts.
Import Metrics.
Local Open Scope float_scope.

(** ** The events the producer makes *)

Lemma type_is_fps_event (fps : float) : type_is (fps_event fps) (py "fps") = true.
Proof.
  unfold type_is, fps_event. now rewrite lookup_insert_eq.
Qed.

Lemma value_fps_event (fps : float) :
  fps_event fps !! py "value" = Some (VFloat fps).
Proof.
  unfold fps_event. rewrite lookup_insert_ne by discriminate.
  apply lookup_insert_eq.
Qed.

Lemma process_fps_event (fps : float) (self : Metrics.t) :
  process (fps_event fps) self
  = mk (running self) (VFloat fps) (event_q self) (fps_lbl self).
Proof.
  unfold process. now rewrite type_is_fps_event, value_fps_event.
Qed.

(** ** Draining *)

(** With fuel for every queued event and the final [queue.Empty], the
    loop takes the whole queue, in order, and touches nothing else. *)
Lemma drain_all (fuel : nat) : forall self,
  (length (event_q self) < fuel)%nat ->
  drain fuel self
  = mk (running self) (fold_left seen (event_q self) (fps_value self)) []
       (fps_lbl self).
Proof.
  induction fuel as [|fuel IH]; intros self Hfuel; [lia|].
  destruct self as [r v q lbl]. cbn [event_q] in Hfuel.
  destruct q as [|evt q]; [reflexivity|].
  cbn [drain get_nowait event_q running fps_value fps_lbl].
  rewrite IH.
  - unfold process, seen. cbn [fold_left].
    now destruct (type_is evt (py "fps")).
  - unfold process. cbn in Hfuel. destruct (type_is evt (py "fps")); cbn; lia.
Qed.

Lemma drain_tick (self : Metrics.t) :
  drain (S (length (event_q self))) self
  = mk (running self) (fold_left seen (event_q self) (fps_value self)) []
       (fps_lbl self).
Proof. apply drain_all. lia. Qed.

(** A queue of samples leaves the last of them. *)
Lemma seen_samples (samples : list float) (last_sample : float) (v : value) :
  fold_left seen (map fps_event (samples ++ [last_sample])) v
  = VFloat last_sample.
Proof.
  rewrite map_app, fold_left_app. cbn [map fold_left]. unfold seen at 1.
  now rewrite type_is_fps_event, value_fps_event.
Qed.

(** C1.  The producer puts three samples on the empty queue; the next UI
    tick takes all three off and keeps and shows the third only; the queue
    is then empty ([get_nowait] raises [queue.Empty]), and a second tick
    with nothing put in between takes nothing and changes nothing. *)
Theorem drain_keeps_latest_sample (self : Metrics.t) (s1 s2 s3 : float) :
  event_q self = [] ->
  let published :=
    put_nowait (fps_event s3)
      (put_nowait (fps_event s2) (put_nowait (fps_event s1) self)) in
  let first := _schedule_ui_tick published in
  let second := _schedule_ui_tick first.1 in
  event_q published = [fps_event s1; fps_event s2; fps_event s3]
  /\ fps_value first.1 = VFloat s3
  /\ fps_lbl first.1 = default (fps_lbl self) (fps_text (VFloat s3))
  /\ event_q first.1 = []
  /\ get_nowait first.1 = None
  /\ second.1 = first.1.
Proof.
  intros Hq. cbn zeta.
  set (published := put_nowait _ (put_nowait _ (put_nowait _ self))).
  assert (Hp : event_q published = map fps_event ([s1; s2] ++ [s3])).
  { subst published. cbn [put_nowait event_q]. now rewrite Hq. }
  assert (Hd : drain (S (length (event_q published))) published
               = mk (running self) (VFloat s3) [] (fps_lbl self)).
  { rewrite drain_tick, Hp, seen_samples. reflexivity. }
  assert (H1 : (_schedule_ui_tick published).1
               = mk (running self) (VFloat s3) []
                    (default (fps_lbl self) (fps_text (VFloat s3)))).
  { unfold _schedule_ui_tick. rewrite Hd. cbn [fps_value].
    destruct (fps_text (VFloat s3)); reflexivity. }
  rewrite H1. cbn [fps_value fps_lbl event_q].
  split; [exact Hp|]. do 4 (split; [reflexivity|]).
  unfold _schedule_ui_tick. cbn [event_q length drain get_nowait fps_value].
  destruct (fps_text (VFloat s3)); reflexivity.
Qed.

Lemma drain_keeps_latest_sample_witness :
  fps_value
    (_schedule_ui_tick
       (put_nowait (fps_event 601)
          (put_nowait (fps_event 600)
             (put_nowait (fps_event 599) Metrics.__init__)))).1
  = VFloat 601.
Proof.
  refine (proj1 (proj2 (drain_keeps_latest_sample Metrics.__init__
                          599 600 601 _))).
  reflexivity.
Defined.

(** ** Reporting *)

(** C7, as the program has it.  In the iteration that ends a reporting
    window (a quarter of a second or more since the last report) the loop
    publishes the frames counted since that report, this iteration
    included, over the time since it; the frame counter goes back to zero
    and the window starts anew at [now].  The tick times summed up in
    [acc_time] are never read and keep adding up. *)
Theorem report_publishes_rate
    (dt_ms : Z) (now : float) (l : locals) (self : Metrics.t) :
  (0.25 <=? now - last_report l) = true ->
  let r := loop_body dt_ms now l self in
  event_q r.2
  = event_q self
    ++ [fps_event (float_of_int (frames l + 1) / (now - last_report l))]
  /\ frames r.1 = 0%Z
  /\ last_report r.1 = now
  /\ acc_time r.1 = acc_time l + float_of_int dt_ms / 1000.
Proof.
  intros Hdue. cbn zeta. unfold loop_body. rewrite Hdue.
  repeat split.
Qed.

(** Until then an iteration only counts. *)
Lemma no_report_before_window_ends
    (dt_ms : Z) (now : float) (l : locals) (self : Metrics.t) :
  (0.25 <=? now - last_report l) = false ->
  let r := loop_body dt_ms now l self in
  r.2 = self
  /\ frames r.1 = (frames l + 1)%Z
  /\ last_report r.1 = last_report l.
Proof.
  intros Hdue. cbn zeta. unfold loop_body. rewrite Hdue.
  repeat split.
Qed.

Lemma report_publishes_rate_witness :
  event_q (loop_body 250 100.25 (loop_entry 100) Metrics.__init__).2
  = [] ++ [fps_event (float_of_int (0 + 1) / (100.25 - 100))].
Proof.
  refine (proj1 (report_publishes_rate 250 100.25 (loop_entry 100)
                   Metrics.__init__ _)).
  reflexivity.
Defined.

(** C7 as the spec words it fails: at the first report of a loop entered
    at time 100, with one tick of 250 ms, the rate published is 4, the
    frame counter is back to zero, and [acc_time] is 0.25, not zero. *)
Lemma acc_time_is_not_reset :
  let r := loop_body 250 100.25 (loop_entry 100) Metrics.__init__ in
  event_q r.2 = [fps_event 4]
  /\ frames r.1 = 0%Z
  /\ acc_time r.1 = 0.25
  /\ acc_time r.1 <> 0.
Proof.
  cbn zeta. repeat split.
  intros Hzero.
  apply (f_equal (fun x => PrimFloat.eqb x 0)) in Hzero.
  vm_compute in Hzero. discriminate Hzero.
Qed.

(** The two threads in one run: four iterations with three reports, then
    two UI ticks. *)
Example three_reports_then_two_ticks :
  let st := run [Test; Iterate 250 100.25; Test; Iterate 250 100.5;
                 Test; Iterate 125 100.625; Test; Iterate 125 100.75;
                 UiTick]
                (started 100, Metrics.__init__) in
  fps_value st.2 = VFloat 8
  /\ fps_lbl st.2 = py "FPS: 8"
  /\ event_q st.2 = []
  /\ acc_time (vars st.1) = 0.75
  /\ run [UiTick] st = st.
Proof. cbn zeta. repeat split; vm_compute; reflexivity. Qed.

(** After [RetroDesktop.__init__] the label says [FPS: 0]. *)
Example label_after_init :
  fps_lbl Metrics.__init__ = py "FPS: 0" /\ event_q Metrics.__init__ = [].
Proof. split; vm_compute; reflexivity. Qed.

End MetricsFacts.

(** * More about the terminal *)

Module TerminalMore.
Import TkText TerminalWindow PyStrFacts TkTextFacts TerminalFacts.

(** ** Responses *)

Lemma concat_split_on_from (cur s : str) :
  concat (map (fun line => line ++ [nl]) (split_on_from nl cur s))
  = rev cur ++ s ++ [nl].
Proof.
  revert cur. induction s as [|c s IH]; intros cur; cbn [split_on_from].
  - cbn. now rewrite app_nil_r.
  - destruct (c =? nl)%N eqn:Hc.
    + apply N.eqb_eq in Hc. subst c. cbn [map concat]. rewrite IH.
      cbn. now rewrite <- !app_assoc.
    + rewrite IH. cbn [rev]. now rewrite <- !app_assoc.
Qed.

Lemma shown_verbatim (out : str) : shown out = verbatim out.
Proof.
  destruct out as [|c out]; [reflexivity|].
  unfold shown, verbatim, split_on. now rewrite concat_split_on_from.
Qed.

Lemma text_eta (tx : Text) :
  mkText (chars tx) (insert_mark tx) (sel tx) = tx.
Proof. now destruct tx. Qed.

Lemma set_text_same (tw : TerminalWindow.t) : set_text tw (text tw) = tw.
Proof. now destruct tw. Qed.

Lemma set_text_twice (tw : TerminalWindow.t) (a b : Text) :
  set_text (set_text tw a) b = set_text tw b.
Proof. reflexivity. Qed.

(** ** Keys, one at a time *)

(** [_on_key] with the cursor in front of the input start, the lock on:
    the cursor goes to the end of the buffer. *)
Lemma on_key_in_transcript (event : KeyEvent) (tw : TerminalWindow.t) :
  well_formed tw ->
  (insert_mark (text tw) < _input_start_idx tw)%nat ->
  _on_key event tw
  = (if PyStr.eqb (keysym event) (py "BackSpace")
        && (length (chars (text tw)) <=? _input_start_idx tw)%nat
     then Break else Pass,
     set_text tw (mkText (chars (text tw)) (length (chars (text tw)))
                         (sel (text tw)))).
Proof.
  intros [Hlock Hlen] Hcur. unfold _on_key, compare. cbn [index].
  rewrite Hlock.
  replace (insert_mark (text tw) <? _input_start_idx tw)%nat with true
    by (symmetry; apply Nat.ltb_lt; exact Hcur).
  unfold mark_set_insert. cbn [index text set_text insert_mark
                               _input_start_idx chars].
  rewrite Nat.min_id.
  destruct (PyStr.eqb (keysym event) (py "BackSpace")); [|reflexivity].
  now destruct (length (chars (text tw)) <=? _input_start_idx tw)%nat.
Qed.

(** [_on_key] in one equation: the cursor lands, and a BackSpace that
    would reach the input start is stopped. *)
Lemma on_key_lands (event : KeyEvent) (tw : TerminalWindow.t) :
  well_formed tw ->
  _on_key event tw
  = (if PyStr.eqb (keysym event) (py "BackSpace")
        && (landing tw <=? _input_start_idx tw)%nat
     then Break else Pass,
     set_text tw (mkText (chars (text tw)) (landing tw) (sel (text tw)))).
Proof.
  intros Hwf. unfold landing.
  destruct (insert_mark (text tw) <? _input_start_idx tw)%nat eqn:Hcur.
  - apply Nat.ltb_lt in Hcur. now apply on_key_in_transcript.
  - apply Nat.ltb_ge in Hcur. rewrite on_key_in_input by exact Hcur.
    now rewrite text_eta, set_text_same.
Qed.

Lemma landing_bounds (tw : TerminalWindow.t) :
  well_formed tw ->
  (insert_mark (text tw) <= length (chars (text tw)))%nat ->
  (_input_start_idx tw <= landing tw <= length (chars (text tw)))%nat.
Proof.
  intros [_ Hlen] Hcur. unfold landing.
  destruct (insert_mark (text tw) <? _input_start_idx tw)%nat eqn:Hlt.
  - lia.
  - apply Nat.ltb_ge in Hlt. lia.
Qed.

(** A key that types has a keysym of its own, the [<Key>] binding, and
    one character to insert. *)
Lemma printing_key (event : KeyEvent) :
  printing event ->
  PyStr.eqb (keysym event) (py "Return") = false
  /\ PyStr.eqb (keysym event) (py "BackSpace") = false
  /\ class_binding event = Some bind_Key
  /\ exists c, char event = [c].
Proof.
  unfold printing. intros Ht.
  assert (Hb : class_binding event = Some bind_Key)
    by (unfold class_binding; now rewrite Ht).
  unfold types in Ht.
  apply andb_prop in Ht as [Ht Hchar]. apply andb_prop in Ht as [_ Hown].
  apply negb_true_iff, bool_decide_eq_false in Hown.
  repeat split.
  - apply eqb_neq. intros Hk. apply Hown. rewrite Hk.
    apply (bool_decide_unpack _). vm_compute. exact I.
  - apply eqb_neq. intros Hk. apply Hown. rewrite Hk.
    apply (bool_decide_unpack _). vm_compute. exact I.
  - exact Hb.
  - destruct (char event) as [|c [|c' r]]; try discriminate. eauto.
Qed.

(** The BackSpace and the Delete key, as [class_binding] knows them. *)
Lemma backspace_key (event : KeyEvent) :
  class_binding event = Some bind_BackSpace ->
  keysym event = py "BackSpace".
Proof.
  unfold class_binding.
  repeat match goal with
         | |- context [if ?b then _ else _] => destruct b eqn:?
         end; try discriminate.
  intros _. now apply eqb_eq.
Qed.

Lemma delete_key (event : KeyEvent) :
  class_binding event = Some bind_Delete ->
  keysym event = py "Delete".
Proof.
  unfold class_binding.
  repeat match goal with
         | |- context [if ?b then _ else _] => destruct b eqn:?
         end; try discriminate.
  intros _. now apply eqb_eq.
Qed.

(** [tk::TextInsert] with nothing selected. *)
Lemma TextInsert_plain (tx : Text) (c : N) :
  sel tx = None ->
  (insert_mark tx <= length (chars tx))%nat ->
  TextInsert tx [c]
  = mkText (take (insert_mark tx) (chars tx) ++ [c]
            ++ drop (insert_mark tx) (chars tx))
           (insert_mark tx + 1) None.
Proof.
  intros Hsel Hcur. unfold TextInsert, TextCursorInSelection, insert.
  rewrite Hsel. cbn [index length fmap option_fmap option_map].
  rewrite ?Hsel, Nat.min_l by exact Hcur. now rewrite Nat.leb_refl.
Qed.

(** ** Words and white space *)

Lemma split_from_word (w : str) : forall cur rest,
  forallb (fun c => negb (isspace c)) w = true ->
  split_from cur (w ++ rest) = split_from (rev w ++ cur) rest.
Proof.
  induction w as [|c w IH]; intros cur rest Hw; [reflexivity|].
  cbn [forallb] in Hw. apply andb_prop in Hw as [Hc Hw].
  apply negb_true_iff in Hc. cbn [app split_from]. rewrite Hc.
  rewrite IH by exact Hw. cbn [rev]. now rewrite <- app_assoc.
Qed.

Lemma rev_word (w : str) : w <> [] -> exists c r, rev w = c :: r.
Proof.
  intros Hne. destruct (rev w) as [|c r] eqn:Hr; [|eauto].
  apply (f_equal (@rev N)) in Hr. rewrite rev_involutive in Hr.
  now destruct Hne.
Qed.

Lemma split_word_then (w rest : str) :
  word w ->
  split_from [] (w ++ space :: rest) = w :: split_from [] rest.
Proof.
  intros [Hne Hw]. rewrite split_from_word by exact Hw. rewrite app_nil_r.
  cbn [split_from]. change (isspace space) with true. cbv iota.
  destruct (rev_word w Hne) as (c & r & Hr).
  rewrite <- (rev_involutive w) at 2. now rewrite Hr.
Qed.

Lemma split_word_last (w : str) : word w -> split_from [] w = [w].
Proof.
  intros [Hne Hw]. rewrite <- (app_nil_r w) at 1.
  rewrite split_from_word by exact Hw. rewrite app_nil_r.
  cbn [split_from].
  destruct (rev_word w Hne) as (c & r & Hr).
  rewrite <- (rev_involutive w) at 2. now rewrite Hr.
Qed.

(** Words joined by single spaces split into the same words. *)
Lemma split_join_words (ws : list str) :
  Forall word ws -> PyStr.split (join (py " ") ws) = ws.
Proof.
  unfold PyStr.split. induction 1 as [|w ws Hw Hws IH]; [reflexivity|].
  destruct ws as [|w' ws'].
  - cbn [join]. now apply split_word_last.
  - change (join (py " ") (w :: w' :: ws'))
      with (w ++ space :: join (py " ") (w' :: ws')).
    rewrite split_word_then by exact Hw. now rewrite IH.
Qed.

Lemma strip_spaces (s : str) : forallb isspace s = true -> strip s = [].
Proof. intros Hs. unfold strip. now rewrite lstrip_spaces. Qed.

(** No letter, digit or punctuation mark of ASCII is white space. *)
Lemma isspace_printing (c : N) : (33 <= c < 128)%N -> isspace c = false.
Proof.
  intros Hc. unfold isspace.
  rewrite (proj2 (N.leb_gt c 13)), (proj2 (N.leb_gt c 32)) by lia.
  rewrite (proj2 (N.eqb_neq c 133)), (proj2 (N.eqb_neq c 160)),
    (proj2 (N.eqb_neq c 5760)), (proj2 (N.eqb_neq c 8232)),
    (proj2 (N.eqb_neq c 8233)), (proj2 (N.eqb_neq c 8239)),
    (proj2 (N.eqb_neq c 8287)), (proj2 (N.eqb_neq c 12288)) by lia.
  rewrite (proj2 (N.leb_gt 8192 c)) by lia.
  now rewrite !andb_false_r.
Qed.

Lemma ascii_lower_letter (c : N) :
  ascii_lower c = c \/ ((65 <= c <= 90)%N /\ ascii_lower c = (c + 32)%N).
Proof.
  unfold ascii_lower.
  destruct ((65 <=? c)%N && (c <=? 90)%N) eqn:Hc; [|now left].
  apply andb_prop in Hc as [H1 H2].
  apply N.leb_le in H1. apply N.leb_le in H2. right. auto.
Qed.

Lemma isspace_ascii_lower (c : N) : isspace (ascii_lower c) = isspace c.
Proof.
  destruct (ascii_lower_letter c) as [->|[Hc ->]]; [reflexivity|].
  now rewrite !isspace_printing by lia.
Qed.

Lemma isascii_ascii_lower (c : N) :
  isascii c = true -> isascii (ascii_lower c) = true.
Proof.
  unfold isascii. rewrite !N.ltb_lt.
  destruct (ascii_lower_letter c) as [->|[Hc ->]]; lia.
Qed.

Lemma ascii_lower_twice (c : N) : ascii_lower (ascii_lower c) = ascii_lower c.
Proof.
  destruct (ascii_lower_letter c) as [Hc|[Hc Hl]]; [now rewrite Hc|].
  rewrite Hl. unfold ascii_lower.
  replace ((65 <=? c + 32)%N && (c + 32 <=? 90)%N) with false; [reflexivity|].
  symmetry. apply andb_false_iff. right. apply N.leb_gt. lia.
Qed.

(** Lower-casing an ASCII string word by word. *)
Lemma split_from_ascii_lower (s : str) : forall cur,
  split_from (map ascii_lower cur) (map ascii_lower s)
  = map (map ascii_lower) (split_from cur s).
Proof.
  induction s as [|c s IH]; intros cur; cbn [map split_from].
  - destruct cur as [|a cur]; [reflexivity|].
    change (map ascii_lower (a :: cur)) with (ascii_lower a :: map ascii_lower cur).
    cbn [map]. f_equal. change (ascii_lower a :: map ascii_lower cur)
      with (map ascii_lower (a :: cur)). now rewrite map_rev.
  - rewrite isspace_ascii_lower. destruct (isspace c).
    + destruct cur as [|a cur]; [apply (IH [])|].
      change (map ascii_lower (a :: cur))
        with (ascii_lower a :: map ascii_lower cur).
      cbn [map]. f_equal; [|apply (IH [])].
      change (ascii_lower a :: map ascii_lower cur)
        with (map ascii_lower (a :: cur)). now rewrite map_rev.
    + apply (IH (c :: cur)).
Qed.

Lemma forallb_rev {A} (p : A -> bool) (l : list A) :
  forallb p l = true -> forallb p (rev l) = true.
Proof.
  rewrite !forallb_forall. intros Hl a Ha. apply Hl. now apply in_rev.
Qed.

(** The words of an ASCII string are ASCII. *)
Lemma split_from_isascii (s : str) : forall cur,
  forallb isascii cur = true -> forallb isascii s = true ->
  Forall (fun w => forallb isascii w = true) (split_from cur s).
Proof.
  induction s as [|c s IH]; intros cur Hcur Hs; cbn [split_from].
  - destruct cur as [|a cur]; constructor; [|constructor].
    now apply forallb_rev.
  - cbn [forallb] in Hs. apply andb_prop in Hs as [Hc Hs].
    destruct (isspace c).
    + destruct cur as [|a cur]; [now apply IH|].
      constructor; [now apply forallb_rev | now apply IH].
    + apply IH; [|exact Hs]. cbn [forallb]. now rewrite Hc, Hcur.
Qed.

Lemma forallb_isascii_lower (s : str) :
  forallb isascii s = true -> forallb isascii (map ascii_lower s) = true.
Proof.
  induction s as [|c s IH]; [reflexivity|]. cbn [forallb map].
  intros Hs. apply andb_prop in Hs as [Hc Hs].
  now rewrite isascii_ascii_lower, IH.
Qed.

Section WithCaseTable.
Context `{CaseTable}.

(** ** Typing at the end of the buffer *)






(** ** Any cursor, nothing selected *)

(** X3.  A key that types puts its character in at the cursor; a cursor
    that stood in the transcript is at the end of the buffer by then, so
    the character is appended to the input line.  Nothing else changes.
    (With nothing selected; a selection that holds the cursor is replaced
    by the character, see [typing_over_a_selection].) *)
Theorem printing_key_inserts_at_cursor
    (event : KeyEvent) (tw : TerminalWindow.t) :
  well_formed tw ->
  (insert_mark (text tw) <= length (chars (text tw)))%nat ->
  no_selection tw -> printing event ->
  step (Key event) tw
  = Some (set_text tw
            (mkText (take (landing tw) (chars (text tw)) ++ char event
                     ++ drop (landing tw) (chars (text tw)))
                    (landing tw + length (char event)) None)).
Proof.
  intros Hwf Hcur Hsel Hp.
  pose proof (landing_bounds tw Hwf Hcur) as Hl.
  destruct (printing_key event Hp) as (Hret & Hbs & Hbind & c & Hc).
  cbn [step]. rewrite Hret. rewrite on_key_lands by exact Hwf.
  rewrite Hbs. cbn [andb]. rewrite Hbind.
  cbn [fmap option_fmap option_map class_key]. rewrite set_text_twice.
  cbn [text set_text]. rewrite Hc.
  rewrite TextInsert_plain by (cbn [sel insert_mark chars]; first [exact Hsel | lia]).
  reflexivity.
Qed.

(** X4.  A BackSpace takes away the character in front of the cursor,
    unless that would reach the input start, when it does nothing.  With
    the cursor in the transcript it is the last character of the input
    line that goes, the cursor having moved to the end of the buffer.
    (With nothing selected.) *)
Theorem backspace_deletes_before_cursor
    (event : KeyEvent) (tw : TerminalWindow.t) :
  well_formed tw ->
  (insert_mark (text tw) <= length (chars (text tw)))%nat ->
  no_selection tw ->
  class_binding event = Some bind_BackSpace ->
  step (Key event) tw
  = Some (set_text tw
            (if (landing tw <=? _input_start_idx tw)%nat
             then mkText (chars (text tw)) (landing tw) None
             else mkText (take (landing tw - 1) (chars (text tw))
                          ++ drop (landing tw) (chars (text tw)))
                         (landing tw - 1) None)).
Proof.
  intros Hwf Hcur Hsel Hb. pose proof (backspace_key event Hb) as Hk.
  pose proof (landing_bounds tw Hwf Hcur) as Hp.
  unfold no_selection in Hsel.
  cbn [step]. rewrite Hk.
  change (PyStr.eqb (py "BackSpace") (py "Return")) with false. cbv iota.
  rewrite on_key_lands by exact Hwf. rewrite Hk, Hsel.
  change (PyStr.eqb (py "BackSpace") (py "BackSpace")) with true.
  cbn [andb].
  destruct (landing tw <=? _input_start_idx tw)%nat eqn:Hle; [reflexivity|].
  apply Nat.leb_gt in Hle. rewrite Hb.
  cbn [fmap option_fmap option_map class_key]. rewrite set_text_twice.
  do 2 f_equal. cbn [text set_text].
  unfold on_BackSpace, TextCursorInSelection. cbn [sel insert_mark].
  destruct (landing tw) as [|q] eqn:Hq; [lia|].
  unfold delete. cbn [index chars insert_mark sel].
  replace (q <? length (chars (text tw)))%nat with true
    by (symmetry; apply Nat.ltb_lt; lia).
  replace (q <? S q)%nat with true by (symmetry; apply Nat.ltb_lt; lia).
  cbn [pred mbind option_bind]. now replace (S q - 1)%nat with q by lia.
Qed.

(** X5.  The Delete key is not guarded: it takes away the character at
    the cursor, the first of the input line included; at the end of the
    buffer, where a cursor from the transcript lands, it does nothing.
    (With nothing selected.) *)
Theorem delete_removes_at_cursor
    (event : KeyEvent) (tw : TerminalWindow.t) :
  well_formed tw ->
  (insert_mark (text tw) <= length (chars (text tw)))%nat ->
  no_selection tw ->
  class_binding event = Some bind_Delete ->
  step (Key event) tw
  = Some (set_text tw
            (mkText (take (landing tw) (chars (text tw))
                     ++ drop (S (landing tw)) (chars (text tw)))
                    (landing tw) None)).
Proof.
  intros Hwf Hcur Hsel Hb. pose proof (delete_key event Hb) as Hk.
  pose proof (landing_bounds tw Hwf Hcur) as Hp.
  unfold no_selection in Hsel.
  cbn [step]. rewrite Hk.
  change (PyStr.eqb (py "Delete") (py "Return")) with false. cbv iota.
  rewrite on_key_lands by exact Hwf. rewrite Hk, Hsel.
  change (PyStr.eqb (py "Delete") (py "BackSpace")) with false.
  cbn [andb]. rewrite Hb.
  cbn [fmap option_fmap option_map class_key]. rewrite set_text_twice.
  do 2 f_equal. cbn [text set_text].
  unfold on_Delete, TextCursorInSelection. cbn [sel].
  unfold delete. cbn [index chars insert_mark sel].
  rewrite Nat.ltb_irrefl.
  destruct (landing tw <? length (chars (text tw)))%nat eqn:Hlt;
    [reflexivity|].
  apply Nat.ltb_ge in Hlt.
  rewrite take_ge, drop_ge by lia. now rewrite app_nil_r.
Qed.

(** ** Answers *)

(** What [handle_command] leaves in the buffer: the response as it is,
    then a newline. *)
Lemma chars_handle_command_response clock cmd a :
  chars (text (handle_command clock cmd a))
  = chars (text (response clock cmd a).2) ++ verbatim (response clock cmd a).1.
Proof.
  unfold handle_command, response.
  destruct (match on_command a with
            | Some f => (f cmd, a)
            | None => _default_commands clock cmd a
            end) as [out a'].
  cbn [fst snd]. destruct out as [|c out]; [now rewrite app_nil_r|].
  destruct (append_lines (split_on nl (c :: out)) a') as [_ Hc].
  cbn zeta in Hc. rewrite Hc. f_equal.
  unfold split_on. now rewrite concat_split_on_from.
Qed.

Lemma prompt_handle_command clock cmd s tw :
  prompt (handle_command clock cmd (_append_line s tw)) = prompt tw.
Proof.
  pose proof (same_frame_handle_command clock cmd (_append_line s tw)) as Ha.
  pose proof (same_frame_append_line s tw) as Hb.
  destruct (same_frame_trans _ _ _ Ha Hb) as (_&_&Hp&_). exact Hp.
Qed.

Lemma chars_on_return clock tw :
  chars (text (_on_return clock tw))
  = chars (text (response clock (strip (input_line tw))
                   (_append_line [] tw)).2)
    ++ verbatim (response clock (strip (input_line tw))
                   (_append_line [] tw)).1
    ++ prompt tw.
Proof.
  unfold _on_return. fold (input_line tw).
  rewrite chars_write_prompt, prompt_handle_command.
  rewrite chars_handle_command_response. now rewrite <- app_assoc.
Qed.

Lemma committed_on_return clock tw :
  committed (_on_return clock tw) = chars (text (_on_return clock tw)).
Proof.
  unfold committed. unfold _on_return at 1.
  rewrite input_start_write_prompt. fold (_on_return clock tw).
  now apply take_ge.
Qed.

(** The answer of a built-in command does not depend on the terminal. *)
Lemma default_commands_output clock cmd a b :
  (_default_commands clock cmd a).1 = (_default_commands clock cmd b).1.
Proof.
  unfold _default_commands.
  destruct (PyStr.split cmd) as [|part0 args]; [reflexivity|].
  repeat match goal with
         | |- context [if ?b then _ else _] => destruct b
         end; reflexivity.
Qed.

(** Only [clear] touches the terminal. *)
Lemma default_commands_keeps clock cmd a :
  command_name cmd <> Some (py "clear") ->
  (_default_commands clock cmd a).2 = a.
Proof.
  unfold command_name, _default_commands.
  destruct (PyStr.split cmd) as [|part0 args]; [reflexivity|].
  cbn [head fmap option_fmap option_map]. intros Hname.
  repeat match goal with
         | |- context [if ?b then _ else _] => destruct b eqn:?
         end; try reflexivity.
  exfalso. apply Hname. f_equal. now apply eqb_eq.
Qed.

Lemma response_append_line clock cmd s tw :
  on_command tw <> None \/ command_name cmd <> Some (py "clear") ->
  response clock cmd (_append_line s tw)
  = ((response clock cmd tw).1, _append_line s tw).
Proof.
  intros Hkeep. unfold response. cbn [on_command _append_line set_text].
  destruct (on_command tw) as [f|]; [reflexivity|].
  destruct Hkeep as [Hf|Hname]; [now destruct Hf|].
  rewrite (surjective_pairing (_default_commands clock cmd _)).
  f_equal; [apply default_commands_output|].
  now apply default_commands_keeps.
Qed.

(** X6.  Submitting only adds to the buffer, save for the built-in
    [clear]: what was there stays, typed line included, and after it come a
    newline, the response exactly as the command gave it followed by a
    newline (nothing at all for an empty response), and the prompt.  All of
    it is committed text from then on. *)
Theorem submit_appends_response (clock : str) (tw : TerminalWindow.t) :
  on_command tw <> None
  \/ command_name (strip (input_line tw)) <> Some (py "clear") ->
  let out := (response clock (strip (input_line tw)) tw).1 in
  let tw' := _on_return clock tw in
  chars (text tw') = chars (text tw) ++ [nl] ++ verbatim out ++ prompt tw
  /\ committed tw' = chars (text tw').
Proof.
  intros Hkeep. cbn zeta. split; [|apply committed_on_return].
  rewrite chars_on_return, response_append_line by exact Hkeep.
  cbn [fst snd]. rewrite chars_append_line. cbn [app].
  now rewrite <- !app_assoc.
Qed.

(** X7.  A line that is empty or all white space runs no command: with
    the built-in commands the buffer gets the newline and a new prompt,
    and nothing else. *)
Theorem blank_line_renews_prompt (clock : str) (tw : TerminalWindow.t) :
  on_command tw = None ->
  forallb isspace (input_line tw) = true ->
  chars (text (_on_return clock tw)) = chars (text tw) ++ [nl] ++ prompt tw
  /\ input_line (_on_return clock tw) = [].
Proof.
  intros Hnone Hblank. split.
  - rewrite chars_on_return, strip_spaces by exact Hblank.
    unfold response.
    change (on_command (_append_line [] tw)) with (on_command tw).
    rewrite Hnone. cbn [_default_commands PyStr.split split_from fst snd
                        verbatim app].
    rewrite chars_append_line. cbn [app]. now rewrite <- app_assoc.
  - unfold input_line. rewrite get_to_end. unfold _on_return at 1.
    rewrite input_start_write_prompt. now apply drop_ge.
Qed.

(** ** The built-in commands *)

(** X8.  [echo] gives back its words: for a command made of the word
    [echo], in any case, and further words with single spaces between
    them, the answer is those further words with the spaces between them,
    and the terminal is left alone. *)
Theorem echo_answers_its_words
    (clock : str) (name : str) (args : list str) (self : TerminalWindow.t) :
  word name -> lower name = py "echo" -> Forall word args ->
  _default_commands clock (join (py " ") (name :: args)) self
  = (join (py " ") args, self).
Proof.
  intros Hname Hecho Hargs. unfold _default_commands.
  rewrite split_join_words by now constructor.
  rewrite Hecho.
  change (PyStr.eqb (py "echo") (py "help")) with false.
  change (PyStr.eqb (py "echo") (py "?")) with false.
  change (PyStr.eqb (py "echo") (py "echo")) with true.
  reflexivity.
Qed.

(** But for [echo], a built-in command is its name: two commands with
    the same first word, case apart, do the same. *)
Lemma default_commands_by_name clock cmd1 cmd2 self :
  command_name cmd1 = command_name cmd2 ->
  command_name cmd1 <> Some (py "echo") ->
  _default_commands clock cmd1 self = _default_commands clock cmd2 self.
Proof.
  unfold command_name, _default_commands.
  destruct (PyStr.split cmd1) as [|p1 a1], (PyStr.split cmd2) as [|p2 a2];
    cbn [head fmap option_fmap option_map]; try discriminate;
    [reflexivity|].
  intros [= Hn] Hecho. rewrite <- Hn.
  destruct (PyStr.eqb (lower p1) (py "echo")) eqn:He; [|reflexivity].
  apply eqb_eq in He. congruence.
Qed.

(** X9.  The built-in commands other than [echo] do not look at their
    arguments: two commands whose first words agree, case apart, give the
    same answer and leave the same terminal. *)
Theorem builtins_ignore_arguments
    (clock cmd1 cmd2 : str) (self : TerminalWindow.t) :
  command_name cmd1 = command_name cmd2 ->
  command_name cmd1 <> Some (py "echo") ->
  _default_commands clock cmd1 self = _default_commands clock cmd2 self.
Proof. apply default_commands_by_name. Qed.

Lemma lower_ascii (s : str) :
  forallb isascii s = true -> lower s = map ascii_lower s.
Proof. intros Hs. unfold lower. now rewrite Hs. Qed.

Lemma command_name_lower (cmd : str) :
  forallb isascii cmd = true ->
  command_name (lower cmd) = command_name cmd.
Proof.
  intros Hcmd. unfold command_name, PyStr.split.
  rewrite lower_ascii by exact Hcmd.
  pose proof (split_from_ascii_lower cmd []) as Hsplit.
  pose proof (split_from_isascii cmd [] eq_refl Hcmd) as Hwords.
  cbn [map] in Hsplit. rewrite Hsplit.
  destruct (split_from [] cmd) as [|w ws]; [reflexivity|].
  apply Forall_cons in Hwords as [Hw _].
  cbn [map head fmap option_fmap option_map]. f_equal.
  rewrite !lower_ascii by auto using forallb_isascii_lower.
  rewrite map_map. apply map_ext. intros c. apply ascii_lower_twice.
Qed.

(** X10.  The built-in commands are looked up without regard to case: an
    ASCII command other than [echo] does what its lower-case form does. *)
Theorem builtins_ignore_case
    (clock cmd : str) (self : TerminalWindow.t) :
  forallb isascii cmd = true ->
  command_name cmd <> Some (py "echo") ->
  _default_commands clock (lower cmd) self = _default_commands clock cmd self.
Proof.
  intros Hcmd Hecho. symmetry. apply default_commands_by_name.
  - symmetry. now apply command_name_lower.
  - exact Hecho.
Qed.

(** ** A command from the keys to the answer *)








(** X11.  The prompt stands before the input.  After a submitted line,
    whatever the terminal was and whatever the command did ([clear]
    included), the buffer ends with the prompt and the input start is at
    its end: the text in front of the input start ends with the prompt
    and the input line is empty; the prompt, the collaborator, the
    window attributes and the lock are what they were. *)
Theorem prompt_stands_before_input (clock : str) (tw : TerminalWindow.t) :
  let tw' := _on_return clock tw in
  (exists s, committed tw' = s ++ prompt tw)
  /\ committed tw' = chars (text tw')
  /\ input_line tw' = []
  /\ prompt tw' = prompt tw
  /\ on_command tw' = on_command tw
  /\ base tw' = base tw
  /\ _lock_input_to_end tw' = _lock_input_to_end tw.
Proof.
  cbn zeta. unfold _on_return.
  fold (input_line tw).
  set (a := handle_command clock (strip (input_line tw))
              (_append_line [] tw)).
  assert (Ha : same_frame a tw).
  { eapply same_frame_trans; [apply same_frame_handle_command|].
    apply same_frame_append_line. }
  destruct Ha as (Hbase & Hcmd & Hprompt & Hlock & _).
  assert (Hc : committed (_write_prompt a) = chars (text (_write_prompt a))).
  { unfold committed. rewrite input_start_write_prompt. now apply take_ge. }
  split; [|split; [|split]].
  - exists (chars (text a)).
    now rewrite Hc, chars_write_prompt, Hprompt.
  - exact Hc.
  - unfold input_line. rewrite get_to_end, input_start_write_prompt.
    now apply drop_ge.
  - unfold _write_prompt.
    cbn [prompt on_command base _lock_input_to_end set_input_start_idx
         set_text].
    auto.
Qed.

End WithCaseTable.

(** ** The theorems at work *)



(** [ab] typed and the cursor clicked into the banner: the next key goes
    to the end of the input line. *)
Lemma printing_key_inserts_at_cursor_witness :
  (chars ∘ text)
    <$> step (H := no_case_table) (Key (typing "x" "x"))
          (set_text typed_ab (TextSetCursor (text typed_ab) 3))
  = Some (chars (text typed_ab) ++ py "x").
Proof.
  rewrite (printing_key_inserts_at_cursor (H := no_case_table)
             (typing "x" "x")
             (set_text typed_ab (TextSetCursor (text typed_ab) 3))).
  - reflexivity.
  - split; [reflexivity | vm_compute; lia].
  - vm_compute; lia.
  - reflexivity.
  - reflexivity.
Defined.

Lemma backspace_deletes_before_cursor_witness :
  input_line
    <$> step (H := no_case_table) (Key BackSpace)
          (set_text typed_ab (TextSetCursor (text typed_ab) 3))
  = Some (py "a").
Proof.
  rewrite (backspace_deletes_before_cursor (H := no_case_table) BackSpace
             (set_text typed_ab (TextSetCursor (text typed_ab) 3))).
  - reflexivity.
  - split; [reflexivity | vm_compute; lia].
  - vm_compute; lia.
  - reflexivity.
  - reflexivity.
Defined.

Lemma delete_removes_at_cursor_witness :
  input_line <$> step (H := no_case_table) (Key Delete) typed_ab
  = Some (py "b").
Proof.
  rewrite (delete_removes_at_cursor (H := no_case_table) Delete typed_ab).
  - reflexivity.
  - split; [reflexivity | vm_compute; lia].
  - vm_compute; lia.
  - reflexivity.
  - reflexivity.
Defined.

Lemma submit_appends_response_witness :
  chars (text (_on_return (H := no_case_table) (py "12:00:00") typed_ab))
  = chars (text typed_ab) ++ [nl]
    ++ (py "Unknown command: ab" ++ [nl]) ++ py "C:\webos95> ".
Proof.
  refine (proj1 (submit_appends_response (H := no_case_table)
                   (py "12:00:00") typed_ab _)).
  right. discriminate.
Defined.

Lemma blank_line_renews_prompt_witness :
  chars (text (_on_return (H := no_case_table) (py "12:00:00")
                 (prompt_and (py "  ") None)))
  = chars (text (prompt_and (py "  ") None))
    ++ [nl] ++ py "C:\webos95> ".
Proof.
  refine (proj1 (blank_line_renews_prompt (H := no_case_table)
                   (py "12:00:00") (prompt_and (py "  ") None)
                   _ _)); reflexivity.
Defined.

Lemma echo_answers_its_words_witness :
  _default_commands (H := no_case_table) (py "12:00:00")
    (py "Echo Hello, World") at_prompt
  = (py "Hello, World", at_prompt).
Proof.
  apply (echo_answers_its_words (H := no_case_table) (py "12:00:00")
           (py "Echo") [py "Hello,"; py "World"] at_prompt).
  - split; [discriminate | reflexivity].
  - reflexivity.
  - repeat constructor; discriminate.
Defined.

Lemma builtins_ignore_arguments_witness :
  _default_commands (H := no_case_table) (py "12:00:00")
    (py "help me now") at_prompt
  = _default_commands (H := no_case_table) (py "12:00:00") (py "HELP") at_prompt.
Proof.
  apply (builtins_ignore_arguments (H := no_case_table)).
  - reflexivity.
  - discriminate.
Defined.

Lemma builtins_ignore_case_witness :
  _default_commands (H := no_case_table) (py "12:00:00")
    (lower (H := no_case_table) (py "Vibes")) at_prompt
  = _default_commands (H := no_case_table) (py "12:00:00") (py "Vibes") at_prompt.
Proof.
  apply (builtins_ignore_case (H := no_case_table)).
  - reflexivity.
  - discriminate.
Defined.


End TerminalMore.

(** * More about the windows *)

Module DesktopMore.
Import Py Win95Window Desktop DesktopFacts.

(** ** What [open_terminal] and [_about_dialog] leave behind *)



(** The identities handed out so far are below the next one. *)
Lemma identities_step i d :
  unfinished_only d ->
  (forall w, is_Some (children d !! w) -> (w < next_id d)%nat) ->
  forall w, is_Some (children (step i d) !! w) ->
            (w < next_id (step i d))%nat.
Proof.
  intros Hu Hd. destruct i as [| |v wdg event|v wdg event|v wdg event|v];
    cbn [step].
  - rewrite open_terminal_raises by apply Hu. cbn [snd children next_id].
    intros w. rewrite lookup_insert_is_Some.
    intros [->|[_ Hw]]; [lia | specialize (Hd w Hw); lia].
  - rewrite about_dialog_raises. cbn [snd children next_id].
    intros w. rewrite lookup_insert_is_Some.
    intros [->|[_ Hw]]; [lia | specialize (Hd w Hw); lia].
  - now rewrite deliver_unfinished.
  - now rewrite deliver_unfinished.
  - now rewrite deliver_unfinished.
  - destruct (children d !! v) as [c0|]; [|exact Hd].
    destruct (has_part _ _); [|exact Hd].
    intros u. cbn [destroy_window children next_id].
    rewrite lookup_delete_is_Some. intros [_ Hu']. auto.
Qed.

Lemma identities_run inputs : forall d,
  unfinished_only d ->
  (forall w, is_Some (children d !! w) -> (w < next_id d)%nat) ->
  forall w, is_Some (children (run inputs d) !! w) ->
            (w < next_id (run inputs d))%nat.
Proof.
  induction inputs as [|i inputs IH]; intros d Hu Hd; [exact Hd|].
  apply IH; [now apply unfinished_only_step | now apply identities_step].
Qed.

Lemma identities_reached inputs w :
  is_Some (children (run inputs Desktop.__init__) !! w) ->
  (w < next_id (run inputs Desktop.__init__))%nat.
Proof.
  apply (identities_run inputs Desktop.__init__ unfinished_only_init).
  intros v. cbn. rewrite lookup_empty. now intros [? ?].
Qed.

Lemma not_yet_made inputs w :
  (next_id (run inputs Desktop.__init__) <= w)%nat ->
  children (run inputs Desktop.__init__) !! w = None.
Proof.
  intros Hw.
  destruct (children (run inputs Desktop.__init__) !! w) as [c|] eqn:Hc;
    [|reflexivity].
  assert (Hlt : (w < next_id (run inputs Desktop.__init__))%nat)
    by (apply identities_reached; now rewrite Hc).
  lia.
Qed.

(** X13.  The program never has a terminal.  Whatever the user does,
    [self.terminal] is unset and no live window is a terminal: every
    window is a bare frame, and [open_terminal], whenever it is called,
    raises the [AttributeError] of line 99 before it can assign
    [self.terminal]. *)
Theorem terminal_is_never_set (inputs : list input) :
  let d := run inputs Desktop.__init__ in
  terminal d = None
  /\ (forall w c, children d !! w = Some c -> exists win, c = Plain win)
  /\ (open_terminal d).1
     = Raise (AttributeError (py "tkinter") (py "Sizegrip"))
  /\ terminal (open_terminal d).2 = None.
Proof.
  cbn zeta. pose proof (unfinished_only_reached inputs) as Hu.
  split; [apply Hu|]. split.
  - intros w c Hc. destruct Hu as [Hu _].
    destruct (Hu w c Hc) as (?&?&?&?&?& ->). eauto.
  - rewrite open_terminal_raises by apply Hu. split; reflexivity.
Qed.

(** X14.  Every call of [open_terminal] adds a frame.  In every state
    the program reaches, [open_terminal] leaves one more window: an
    unfinished frame under a new identity, in front of all others, which
    stay as they are; a second call adds a second frame in front of the
    first. *)
Theorem open_terminal_adds_a_frame (inputs : list input) :
  let d := run inputs Desktop.__init__ in
  let d' := step OpenTerminal d in
  children d !! next_id d = None
  /\ children d' = <[next_id d := terminal_frame]> (children d)
  /\ (forall w c, children d !! w = Some c -> children d' !! w = Some c)
  /\ size (children d') = S (size (children d))
  /\ stack d' = stack d ++ [next_id d]
  /\ frontmost d' = Some (next_id d)
  /\ stack (step OpenTerminal d') = stack d ++ [next_id d; S (next_id d)]
  /\ size (children (step OpenTerminal d')) = S (S (size (children d))).
Proof.
  cbn zeta. pose proof (unfinished_only_reached inputs) as Hu.
  pose proof (not_yet_made inputs) as Hnew.
  set (d := run inputs Desktop.__init__) in *.
  assert (Hu' : unfinished_only (step OpenTerminal d))
    by now apply unfinished_only_step.
  assert (Hstep : step OpenTerminal d
                  = mk (<[next_id d := terminal_frame]> (children d))
                       (stack d ++ [next_id d]) None (S (next_id d))).
  { cbn [step]. now rewrite open_terminal_raises by apply Hu. }
  assert (Hstep' : step OpenTerminal (step OpenTerminal d)
                   = mk (<[S (next_id d) := terminal_frame]>
                           (<[next_id d := terminal_frame]> (children d)))
                        ((stack d ++ [next_id d]) ++ [S (next_id d)]) None
                        (S (S (next_id d)))).
  { rewrite Hstep. cbn [step].
    now rewrite open_terminal_raises by reflexivity. }
  rewrite Hstep', Hstep. cbn [children stack].
  split; [now apply Hnew|]. split; [reflexivity|]. split.
  { intros w c Hc. rewrite lookup_insert_ne; [exact Hc|].
    intros <-. rewrite Hnew in Hc by lia. discriminate. }
  split; [now rewrite map_size_insert_None by now apply Hnew|].
  split; [reflexivity|]. split.
  { unfold frontmost. cbn [stack]. apply last_snoc. }
  split; [now rewrite <- app_assoc|].
  rewrite !map_size_insert_None; [reflexivity | now apply Hnew |].
  rewrite lookup_insert_ne by lia. apply Hnew. lia.
Qed.

Example open_terminal_two_times :
  stack (run [OpenTerminal; OpenTerminal] Desktop.__init__) = [0; 1]%nat
  /\ terminal (run [OpenTerminal; OpenTerminal] Desktop.__init__) = None
  /\ children (run [OpenTerminal; OpenTerminal] Desktop.__init__) !! 1%nat
     = Some terminal_frame.
Proof. repeat split; vm_compute; reflexivity. Qed.


(** ** The theorems at work *)


Lemma handlers_follow_pointer_witness :
  origin 0
    (on_drag_end 0 (mkPointer 18 8)
       (fold_left (λ d pos, on_drag_move 0 (event_at 0 (2, 2) pos d) d)
          [(205, 172); (210, 175)]
          (on_drag_start 0 (event_at 0 (2, 2) (200, 170) about_only)
             about_only)))
  = Some (190, 165).
Proof.
  exact (handlers_follow_pointer about_only 0 about_frame (2, 2)
           (200, 170) [(205, 172); (210, 175)] eq_refl).
Defined.

End DesktopMore.

(** * More about the frame-rate pipeline *)

Module MetricsMore.
Import Metrics MetricsFacts.
Local Open Scope float_scope.

(** ** One UI tick *)

Lemma seen_others (q : list event) (v : value) :
  Forall (λ evt, type_is evt (py "fps") = false) q ->
  fold_left seen q v = v.
Proof.
  intros Hq. revert v. induction Hq as [|evt q Hevt _ IH]; intros v;
    [reflexivity|].
  cbn [fold_left]. unfold seen at 2. rewrite Hevt. apply IH.
Qed.

(** What a tick leaves: the queue empty, the value the queue led to, the
    label made from it when it can be. *)
Lemma tick_result (self : Metrics.t) :
  _schedule_ui_tick self
  = let v := fold_left seen (event_q self) (fps_value self) in
    match fps_text v with
    | Some s => (mk (running self) v [] s, true)
    | None => (mk (running self) v [] (fps_lbl self), false)
    end.
Proof. unfold _schedule_ui_tick. now rewrite drain_tick. Qed.

(** X18.  A UI tick takes every event off the queue and keeps the value
    of the last event of type [fps], whatever stands before it and
    whatever other events come after it; an [fps] event without a [value]
    counts as 0.0. *)
Theorem tick_keeps_last_fps_event
    (self : Metrics.t) (before after : list event) (evt : event) :
  event_q self = before ++ evt :: after ->
  type_is evt (py "fps") = true ->
  Forall (λ e, type_is e (py "fps") = false) after ->
  let r := _schedule_ui_tick self in
  event_q r.1 = []
  ∧ fps_value r.1 = default (VFloat 0) (evt !! py "value")
  ∧ running r.1 = running self.
Proof.
  intros Hq Hevt Hafter. cbn zeta. rewrite tick_result. cbn zeta.
  assert (Hv : fold_left seen (event_q self) (fps_value self)
               = default (VFloat 0) (evt !! py "value")).
  { rewrite Hq, fold_left_app. cbn [fold_left].
    rewrite seen_others by exact Hafter. unfold seen. now rewrite Hevt. }
  rewrite Hv. destruct (fps_text _); repeat split.
Qed.

(** X19.  Events that are not of type [fps] (of another type, or with no
    type at all) are taken off the queue and dropped: a tick that finds
    only such events, or none, leaves the value as it was. *)
Theorem tick_drops_other_events (self : Metrics.t) :
  Forall (λ e, type_is e (py "fps") = false) (event_q self) ->
  let r := _schedule_ui_tick self in
  event_q r.1 = []
  ∧ fps_value r.1 = fps_value self
  ∧ running r.1 = running self.
Proof.
  intros Hq. cbn zeta. rewrite tick_result. cbn zeta.
  rewrite seen_others by exact Hq. destruct (fps_text _); repeat split.
Qed.

(** X20.  A second tick with nothing published in between changes
    nothing, whatever the first one found. *)
Theorem tick_twice (self : Metrics.t) :
  _schedule_ui_tick (_schedule_ui_tick self).1 = _schedule_ui_tick self.
Proof.
  rewrite (tick_result self). cbn zeta.
  destruct (fps_text (fold_left seen (event_q self) (fps_value self)))
    as [s|] eqn:Hs; cbn [fst]; rewrite tick_result;
    cbn [event_q fps_value running fps_lbl fold_left]; now rewrite Hs.
Qed.

(** ** Quitting *)

Lemma loop_body_locals dt_ms now (l : locals) (a b : Metrics.t) :
  (loop_body dt_ms now l a).1 = (loop_body dt_ms now l b).1.
Proof. unfold loop_body. now destruct (_ <=? _). Qed.

Lemma loop_body_shared dt_ms now (l : locals) (self : Metrics.t) :
  running (loop_body dt_ms now l self).2 = running self
  ∧ (length (event_q (loop_body dt_ms now l self).2)
     <= S (length (event_q self)))%nat.
Proof.
  unfold loop_body. destruct (_ <=? _); cbn [snd]; [|split; [reflexivity|lia]].
  unfold put_nowait. cbn [running event_q]. rewrite length_app. cbn.
  split; [reflexivity|lia].
Qed.

Lemma tick_shared (self : Metrics.t) :
  running (_schedule_ui_tick self).1 = running self
  ∧ (event_q (_schedule_ui_tick self).1 = event_q self
     ∨ event_q (_schedule_ui_tick self).1 = []).
Proof.
  rewrite tick_result. cbn zeta. destruct (fps_text _); cbn; auto.
Qed.

(** With [running] cleared and the loop thread not inside an iteration,
    no action changes the loop's variables or puts anything on the
    queue. *)
Lemma step_stopped (a : action) (st : thread * Metrics.t) :
  running st.2 = false -> pc st.1 <> in_iteration ->
  vars (step a st).1 = vars st.1
  ∧ running (step a st).2 = false
  ∧ pc (step a st).1 <> in_iteration
  ∧ (event_q (step a st).2 = event_q st.2 ∨ event_q (step a st).2 = []).
Proof.
  intros Hstop Hpc. destruct a as [|dt_ms now| |]; cbn [step].
  - destruct (pc st.1) eqn:Hp; try congruence; cbn [fst snd pc vars];
      rewrite ?Hstop, ?Hp; repeat split; auto; congruence.
  - destruct (pc st.1) eqn:Hp; try congruence; repeat split; auto;
      congruence.
  - cbn [fst snd]. destruct (tick_shared st.2) as [Hr Hq].
    rewrite Hr. auto.
  - cbn. auto.
Qed.

Lemma run_stopped (actions : list action) :
  forall st : thread * Metrics.t,
  running st.2 = false -> pc st.1 <> in_iteration ->
  vars (run actions st).1 = vars st.1
  ∧ running (run actions st).2 = false
  ∧ pc (run actions st).1 <> in_iteration
  ∧ (event_q (run actions st).2 = event_q st.2
     ∨ event_q (run actions st).2 = []).
Proof.
  induction actions as [|a actions IH]; intros st Hstop Hpc; [auto|].
  destruct (step_stopped a st Hstop Hpc) as (Hv & Hr & Hp & Hq).
  destruct (IH (step a st) Hr Hp) as (Hv' & Hr' & Hp' & Hq').
  change (run (a :: actions) st) with (run actions (step a st)).
  split; [congruence|]. split; [exact Hr'|]. split; [exact Hp'|].
  destruct Hq' as [Hq'|Hq']; [|auto]. rewrite Hq'. exact Hq.
Qed.

(** With [running] cleared while the loop thread is inside an iteration,
    that iteration is the last. *)
Lemma run_last_iteration (actions : list action) :
  forall st : thread * Metrics.t,
  running st.2 = false -> pc st.1 = in_iteration ->
  running (run actions st).2 = false
  ∧ (length (event_q (run actions st).2) <= S (length (event_q st.2)))%nat
  ∧ (vars (run actions st).1 = vars st.1
     ∧ pc (run actions st).1 = in_iteration
     ∧ (length (event_q (run actions st).2) <= length (event_q st.2))%nat
     ∨ ∃ dt_ms now,
         vars (run actions st).1 = (loop_body dt_ms now (vars st.1) st.2).1
         ∧ pc (run actions st).1 <> in_iteration).
Proof.
  induction actions as [|a actions IH]; intros st Hstop Hpc.
  { cbn. split; [exact Hstop|]. split; [lia|]. left. auto. }
  change (run (a :: actions) st) with (run actions (step a st)).
  assert (Hsame : ∀ st1 : thread * Metrics.t,
            st1.1 = st.1 -> running st1.2 = false ->
            (length (event_q st1.2) <= length (event_q st.2))%nat ->
            running (run actions st1).2 = false
            ∧ (length (event_q (run actions st1).2)
               <= S (length (event_q st.2)))%nat
            ∧ (vars (run actions st1).1 = vars st.1
               ∧ pc (run actions st1).1 = in_iteration
               ∧ (length (event_q (run actions st1).2)
                  <= length (event_q st.2))%nat
               ∨ ∃ dt_ms now,
                   vars (run actions st1).1
                   = (loop_body dt_ms now (vars st.1) st.2).1
                   ∧ pc (run actions st1).1 <> in_iteration)).
  { intros st1 H1 Hr1 Hq1.
    destruct (IH st1 Hr1) as (Hr' & Hq' & Hv'); [now rewrite H1|].
    split; [exact Hr'|]. split; [lia|].
    destruct Hv' as [(Hv' & Hp' & Hl')|(dt_ms & now & Hv' & Hp')].
    - left. rewrite Hv', H1. repeat split; [exact Hp' | lia].
    - right. exists dt_ms, now. split; [|exact Hp'].
      rewrite Hv', H1. apply loop_body_locals. }
  destruct a as [|dt_ms now| |].
  - apply Hsame; cbn [step]; rewrite Hpc; auto.
  - cbn [step]. rewrite Hpc. cbn zeta.
    destruct (loop_body_shared dt_ms now (vars st.1) st.2) as [Hr Hl].
    destruct (run_stopped actions
                (mkThread at_loop_head
                   (loop_body dt_ms now (vars st.1) st.2).1,
                 (loop_body dt_ms now (vars st.1) st.2).2))
      as (Hv' & Hr' & Hp' & Hq');
      [cbn [snd]; congruence | cbn; discriminate |].
    cbn [fst snd vars] in Hv', Hq'.
    split; [exact Hr'|]. split.
    { destruct Hq' as [-> | ->]; [exact Hl | cbn; lia]. }
    right. exists dt_ms, now. split; [exact Hv' | exact Hp'].
  - apply Hsame; cbn [step fst snd]; [reflexivity | |].
    + destruct (tick_shared st.2) as [Hr _]. congruence.
    + destruct (tick_shared st.2) as [_ [-> | ->]]; cbn; lia.
  - apply Hsame; cbn [step fst snd running event_q]; auto.
Qed.

(** X21.  [quit_app] stops the loop at its next test.  Once [running] is
    cleared, whatever is scheduled afterwards: [running] stays false; a
    loop thread that is at the head of the loop or past it changes its
    variables no more and puts nothing on the queue (which is as it was,
    or emptied by a tick); a loop thread that is inside an iteration,
    past the test, ends that one iteration as if nothing had happened,
    publishing a sample if one is due, and starts no other; and the test
    at the head of the loop ends the thread. *)
Theorem quit_stops_the_loop
    (actions : list action) (st : thread * Metrics.t) :
  let st' := run actions (step Quit st) in
  running st'.2 = false
  ∧ (pc st.1 <> in_iteration ->
       vars st'.1 = vars st.1
       ∧ pc st'.1 <> in_iteration
       ∧ (event_q st'.2 = event_q st.2 ∨ event_q st'.2 = []))
  ∧ (pc st.1 = in_iteration ->
       (vars st'.1 = vars st.1 ∧ pc st'.1 = in_iteration
        ∨ ∃ dt_ms now,
            vars st'.1 = (loop_body dt_ms now (vars st.1) st.2).1
            ∧ pc st'.1 <> in_iteration))
  ∧ (length (event_q st'.2) <= S (length (event_q st.2)))%nat
  ∧ (pc st'.1 = at_loop_head -> pc (step Test st').1 = exited).
Proof.
  cbn zeta.
  assert (Hq : running (step Quit st).2 = false) by reflexivity.
  assert (H1 : (step Quit st).1 = st.1) by reflexivity.
  assert (He : event_q (step Quit st).2 = event_q st.2) by reflexivity.
  assert (Hd : pc st.1 = in_iteration ∨ pc st.1 <> in_iteration)
    by (destruct (pc st.1); auto; right; discriminate).
  assert (Hrun : running (run actions (step Quit st)).2 = false).
  { destruct Hd as [Hp|Hp].
    - apply run_last_iteration; [exact Hq | now rewrite H1].
    - apply run_stopped; [exact Hq | now rewrite H1]. }
  split; [exact Hrun|]. split; [|split; [|split]].
  - intros Hp.
    destruct (run_stopped actions (step Quit st) Hq) as (Hv & _ & Hp' & Hq');
      [now rewrite H1|].
    rewrite H1 in Hv. rewrite He in Hq'. auto.
  - intros Hp.
    destruct (run_last_iteration actions (step Quit st) Hq)
      as (_ & _ & Hv); [now rewrite H1|].
    rewrite H1 in Hv.
    destruct Hv as [(Hv & Hp' & _)|(dt_ms & now & Hv & Hp')];
      [left; auto | right].
    exists dt_ms, now. split; [|exact Hp'].
    rewrite Hv. apply loop_body_locals.
  - destruct Hd as [Hp|Hp].
    + destruct (run_last_iteration actions (step Quit st) Hq)
        as (_ & Hl & _); [now rewrite H1|].
      now rewrite He in Hl.
    + destruct (run_stopped actions (step Quit st) Hq)
        as (_ & _ & _ & Hq'); [now rewrite H1|].
      rewrite He in Hq'. destruct Hq' as [-> | ->]; cbn; lia.
  - set (st' := run actions (step Quit st)) in *. clearbody st'.
    intros Hp. cbn [step]. rewrite Hp. cbn [fst pc]. now rewrite Hrun.
Qed.

(** [quit_app] while the loop thread is in [clock.tick], 0.5 s after the
    last report: the iteration still publishes its sample; the next test
    ends the thread. *)
Example quit_during_an_iteration :
  let st := run [Test; Quit; Iterate 2 100.5; Test; Iterate 2 101; Test]
              (started 100, Metrics.__init__) in
  pc st.1 = exited
  ∧ running st.2 = false
  ∧ length (event_q st.2) = 1%nat
  ∧ frames (vars st.1) = 0%Z.
Proof. vm_compute. repeat split; reflexivity. Qed.

(** ** The theorems at work *)

(** An [fps] event with no [value], between a sample and an event of
    another type. *)
Lemma tick_keeps_last_fps_event_witness :
  fps_value
    (_schedule_ui_tick
       (mk true (VFloat 0)
          [fps_event 600; {[ py "type" := VStr (py "fps") ]};
           {[ py "type" := VStr (py "vibe") ]}]
          (py "FPS: ---"))).1
  = VFloat 0.
Proof.
  refine (proj1 (proj2 (tick_keeps_last_fps_event
                          (mk true (VFloat 0)
                             [fps_event 600;
                              {[ py "type" := VStr (py "fps") ]};
                              {[ py "type" := VStr (py "vibe") ]}]
                             (py "FPS: ---"))
                          [fps_event 600]
                          [{[ py "type" := VStr (py "vibe") ]}]
                          {[ py "type" := VStr (py "fps") ]} _ _ _)));
    [reflexivity | reflexivity |].
  repeat constructor.
Defined.

Lemma tick_drops_other_events_witness :
  fps_value
    (_schedule_ui_tick
       (mk true (VFloat 600)
          [{[ py "type" := VStr (py "vibe") ]}; ∅] (py "FPS: 600"))).1
  = VFloat 600.
Proof.
  refine (proj1 (proj2 (tick_drops_other_events
                          (mk true (VFloat 600)
                             [{[ py "type" := VStr (py "vibe") ]}; ∅]
                             (py "FPS: 600")) _))).
  repeat constructor.
Defined.

End MetricsMore.

(** * The wallpaper *)

Module WallpaperFacts.
Import Wallpaper.

(** [range(0, stop, 24)]: the multiples of 24 from 0 up to [stop],
    [stop] left out. *)
Lemma in_range_24 (stop x : Z) :
  In x (range 0 stop 24) <-> 0 <= x < stop ∧ x mod 24 = 0.
Proof.
  unfold range. destruct (0 <? stop) eqn:Hstop.
  - apply Z.ltb_lt in Hstop. rewrite in_map_iff. split.
    + intros (k & <- & Hk). apply in_seq in Hk.
      assert (Z.of_nat k <= (stop - 0 - 1) / 24) by lia.
      split; [|rewrite Z.add_0_l, Z.mul_comm; apply Z.mod_mul; lia].
      pose proof (Z.mul_div_le (stop - 0 - 1) 24 eq_refl). lia.
    + intros [Hx Hmod]. exists (Z.to_nat (x / 24)). split.
      * rewrite Z2Nat.id by (apply Z.div_pos; lia).
        pose proof (Z.div_mod x 24). lia.
      * apply in_seq.
        assert (x / 24 <= (stop - 0 - 1) / 24)
          by (apply Z.div_le_mono; lia).
        assert (0 <= x / 24) by (apply Z.div_pos; lia). lia.
  - apply Z.ltb_ge in Hstop. split; [intros []|lia].
Qed.

(** A loop that only creates items. *)
Lemma for_creates {A} (l : list A) (made : A → list item) (body : A → canvas → canvas) :
  (∀ a c, body a c = mkCanvas (items c ++ made a) (tag_bindings c)) ->
  ∀ c, for_ l body c = mkCanvas (items c ++ flat_map made l) (tag_bindings c).
Proof.
  intros Hbody. unfold for_.
  induction l as [|a l IH]; intros c; cbn [fold_left flat_map].
  - rewrite app_nil_r. now destruct c.
  - rewrite IH, Hbody. cbn [items tag_bindings]. now rewrite <- app_assoc.
Qed.

Lemma items_draw_wallpaper (w h : Z) (c : canvas) :
  items (_draw_wallpaper w h c)
  = flat_map (λ y,
      flat_map (λ x, if ((x / 24) + (y / 24)) mod 2 =? 0
                     then [dot x y] else [])
               (range 0 (w + 24) 24))
      (range 0 (h + 24) 24)
    ++ icons.
Proof.
  unfold _draw_wallpaper. cbv zeta.
  rewrite (for_creates _
             (λ y, flat_map (λ x, if ((x / 24) + (y / 24)) mod 2 =? 0
                                  then [dot x y] else [])
                            (range 0 (w + 24) 24))).
  - cbn [create tag_bind delete_all items tag_bindings].
    rewrite <- !app_assoc. reflexivity.
  - intros y c0. apply for_creates. intros x c1.
    destruct (_ =? 0); [reflexivity|].
    rewrite app_nil_r. now destruct c1.
Qed.

(** X22.  The wallpaper is a checkerboard of dots under the icons.
    Whatever the canvas held, after [_draw_wallpaper] its display list is
    the dots followed by the five icon items, so the icons are drawn over
    the dots; and there is a dot exactly at the points whose coordinates
    are multiples of 24, from 0 to less than 24 past the width and the
    height, and whose column and row numbers add up to an even number. *)
Theorem wallpaper_is_a_checkerboard (w h : Z) (c : canvas) :
  ∃ dots,
    items (_draw_wallpaper w h c) = dots ++ icons
    ∧ ∀ it, it ∈ dots ↔
        ∃ x y, it = dot x y
               ∧ 0 <= x < w + 24 ∧ 0 <= y < h + 24
               ∧ x mod 24 = 0 ∧ y mod 24 = 0
               ∧ (x / 24 + y / 24) mod 2 = 0.
Proof.
  eexists. split; [apply items_draw_wallpaper|].
  intros it. rewrite list_elem_of_In, in_flat_map. split.
  - intros (y & Hy & Hit). apply in_flat_map in Hit as (x & Hx & Hit).
    apply in_range_24 in Hx, Hy.
    destruct (_ =? 0) eqn:Heven; [|destruct Hit].
    apply Z.eqb_eq in Heven. destruct Hit as [<-|[]].
    exists x, y. tauto.
  - intros (x & y & -> & Hx & Hy & Hxm & Hym & Heven).
    exists y. split; [now apply in_range_24|].
    apply in_flat_map. exists x. split; [now apply in_range_24|].
    rewrite Heven. now left.
Qed.

End WallpaperFacts.
